(** * State-change events of the ECS agent and their diagnostic rendering

    Shallow embedding of package [statechange] (the three event records,
    the two metadata-getter interfaces and the three [String] methods) and
    of the retry constants of package [ecscni] (Windows build).

    The [String] methods only read the receiver; what makes them
    effectful is the metadata getter, an interface value whose methods run
    code of the task engine.  Each method call on a getter is therefore an
    event of a small free monad, interpreted by a handler that owns the
    task engine's state and may panic.  The methods are given twice: as
    functions of the struct the receiver points to, and with the receiver
    in memory, every field read an event; the second form is shown to
    return what the first returns. *)

From Stdlib Require Import String Ascii ZArith QArith List Bool Lia DecimalString.
From Stdlib Require DecimalPos DecimalZ.
Import ListNotations.
Local Open Scope string_scope.
Local Open Scope Z_scope.

Set Implicit Arguments.

(* ===================================================================== *)
(** * Pieces of the Go runtime the package relies on *)
(* ===================================================================== *)

(** [fmt.Stringer]: a type with a [String() string] method. *)
Class Stringer (A : Type) : Type := GoString : A -> string.

#[global] Instance Stringer_string : Stringer string := fun s => s.

Module strconv.
(** [strconv.Itoa]: base-10 text of an [int], with a leading minus sign
    for negative numbers. *)
Definition Itoa (i : Z) : string := NilZero.string_of_int (Z.to_int i).
End strconv.

Module fmt.
(** Operand of [%v] at type [bool]. *)
Definition v_bool (b : bool) : string := if b then "true" else "false".

(** Operand of [%v] at a slice whose elements are Stringers: the
    elements' [String()] separated by one space, inside brackets. *)
Definition v_slice {A : Type} `{Stringer A} (l : list A) : string :=
  "[" ++ String.concat " " (map GoString l) ++ "]".

(** [fmt.Sprintf], for the verbs [%s] and [%v] without flags.  The
    operands are passed already rendered under their verb; a verb without
    an operand prints the [MISSING] marker, [%%] prints a percent sign.
    Every call of the package passes as many operands as its format has
    verbs, so the marker for operands left over is not modelled. *)
Fixpoint Sprintf (format : string) (operands : list string) : string :=
  match format with
  | EmptyString => EmptyString
  | String ch rest =>
      if Ascii.eqb ch "%" then
        match rest with
        | EmptyString => "%!(NOVERB)"
        | String verb rest' =>
            if Ascii.eqb verb "%" then String "%" (Sprintf rest' operands)
            else match operands with
                 | op :: operands' => op ++ Sprintf rest' operands'
                 | [] => "%!" ++ String verb ("(MISSING)" ++ Sprintf rest' [])
                 end
        end
      else String ch (Sprintf rest operands)
  end.
End fmt.

Module strings.
(** [strings.HasPrefix]. *)
Definition HasPrefix (s prefix : string) : bool := String.prefix prefix s.

(** [sub] occurs in [s] (the propositional side of [strings.Contains]). *)
Definition Contains (s sub : string) : Prop :=
  exists before after, s = before ++ sub ++ after.
End strings.

(* ===================================================================== *)
(** * Method calls on interface values *)
(* ===================================================================== *)

(** A computation that, after a finite number of calls to the methods
    listed by the signature [E], returns an [R] or panics by itself (a nil
    pointer dereference). *)
Inductive prog (E : Type -> Type) (R : Type) : Type :=
| Ret (r : R)
| Panic
| Call (X : Type) (e : E X) (k : X -> prog E R).

Arguments Ret {E R} r.
Arguments Panic {E R}.
Arguments Call {E R X} e k.

Fixpoint bind {E : Type -> Type} {A B : Type}
         (p : prog E A) (f : A -> prog E B) : prog E B :=
  match p with
  | Ret a => f a
  | Panic => Panic
  | Call e k => Call e (fun x => bind (k x) f)
  end.

Definition call {E : Type -> Type} {X : Type} (e : E X) : prog E X :=
  Call e (fun x => Ret x).

Declare Scope prog_scope.
Delimit Scope prog_scope with prog.
Notation "x <- p ;; q" := (bind p (fun x => q))
  (at level 61, p at next level, right associativity) : prog_scope.

(** What the callee did at one call: it returned [x], or it panicked. *)
Inductive observed (E : Type -> Type) : Type :=
| Returned (X : Type) (e : E X) (x : X)
| Panicked (X : Type) (e : E X).

Arguments Returned {E X} e x.
Arguments Panicked {E X} e.

(** An implementation of the methods over a world [W] it may read and
    write; [None] is a panic. *)
Definition handler (E : Type -> Type) (W : Type) : Type :=
  forall X : Type, E X -> W -> option (X * W).

(** Running a computation: the calls made, in order, and the result with
    the final world unless a callee, or the computation itself, panicked. *)
Fixpoint exec {E : Type -> Type} {W R : Type}
         (h : handler E W) (p : prog E R) (w : W)
  : list (observed E) * option (R * W) :=
  match p with
  | Ret r => ([], Some (r, w))
  | Panic => ([], None)
  | Call e k =>
      match h _ e w with
      | None => ([Panicked e], None)
      | Some (x, w') =>
          let '(log, out) := exec h (k x) w' in (Returned e x :: log, out)
      end
  end.

Definition calls {E W R} (h : handler E W) (p : prog E R) (w : W)
  : list (observed E) := fst (exec h p w).

Definition outcome {E W R} (h : handler E W) (p : prog E R) (w : W)
  : option (R * W) := snd (exec h p w).

(** The returned value alone. *)
Definition output {E W R} (h : handler E W) (p : prog E R) (w : W)
  : option R := option_map fst (outcome h p w).

(** The method called at one entry of the log, and on which value,
    whatever the callee did. *)
Definition call_of {E : Type -> Type} (o : observed E) : {X : Type & E X} :=
  match o with
  | Returned e _ => existT _ _ e
  | Panicked e => existT _ _ e
  end.

(** Handlers none of whose methods panics. *)
Definition never_panics {E : Type -> Type} {W : Type} (h : handler E W) : Prop :=
  forall (X : Type) (e : E X) (w : W), h X e w <> None.

(** A [for ... range] loop over a slice that threads the string it
    builds. *)
Fixpoint for_range {E : Type -> Type} {A : Type}
         (l : list A) (body : string -> A -> prog E string) (res : string)
  : prog E string :=
  match l with
  | [] => Ret res
  | x :: l' => bind (body res x) (for_range l' body)
  end.

(** [p.String()] on a pointer [p] to a struct whose [String] has a value
    receiver: the call dereferences [p], and panics on nil. *)
Definition pointer_String {E : Type -> Type} {A : Type} `{Stringer A}
           (p : option A) : prog E string :=
  match p with
  | Some v => Ret (GoString v)
  | None => Panic
  end.

(** ** The receiver in memory *)

(** Access to the struct a pointer receiver points to: reading it, and
    assigning to it. *)
Inductive receiverE (T : Type) : Type -> Type :=
| Load : receiverE T T
| Store (v : T) : receiverE T unit.

Arguments Load {T}.
Arguments Store {T} v.

(** The methods of two signatures together. *)
Inductive sumE (E F : Type -> Type) (X : Type) : Type :=
| inlE (e : E X)
| inrE (f : F X).

Arguments inlE {E F X} e.
Arguments inrE {E F X} f.

(** The signature without methods. *)
Inductive noE : Type -> Type := .

(** A world that holds the struct behind the receiver beside the state
    [W] of the task engine.  Loads and assignments act on the struct; the
    methods of the getter are the task engine's, which may hold a pointer
    to the same struct. *)
Definition method_handler {T W : Type} {G : Type -> Type}
           (h : handler G (T * W)) : handler (sumE (receiverE T) G) (T * W) :=
  fun X e st =>
    match e with
    | inlE m =>
        match m in receiverE _ X return option (X * (T * W)) with
        | Load => Some (fst st, st)
        | Store v => Some (tt, (v, snd st))
        end
    | inrE g => h X g st
    end.

(** Reading one field of the receiver. *)
Definition field {T A : Type} {G : Type -> Type} (f : T -> A)
  : prog (sumE (receiverE T) G) A :=
  Call (inlE Load) (fun c => Ret (f c)).

(** Calling a method on the interface value held by a field of the
    receiver; on a nil interface the call panics. *)
Definition on_interface {T I X : Type} {G : Type -> Type}
           (f : T -> option I) (method : I -> G X)
  : prog (sumE (receiverE T) G) X :=
  bind (field f)
       (fun i => match i with
                 | Some i => Call (inrE (method i)) (fun x => Ret x)
                 | None => Panic
                 end).

(** The methods of the getter leave the struct behind the receiver as it
    is. *)
Definition event_untouched {T W : Type} {G : Type -> Type}
           (h : handler G (T * W)) : Prop :=
  forall (X : Type) (e : G X) (c : T) (w : W) (x : X) (c' : T) (w' : W),
    h X e (c, w) = Some (x, (c', w')) -> c' = c.

(** The getter as the renderer of the struct value [c] sees it. *)
Definition value_view {T W : Type} {G : Type -> Type}
           (h : handler G (T * W)) (c : T) : handler G W :=
  fun X e w =>
    match h X e (c, w) with
    | Some (x, (_, w')) => Some (x, w')
    | None => None
    end.

(** A getter that holds no pointer to the struct behind the receiver. *)
Definition aloof {T W : Type} {G : Type -> Type}
           (h : handler G W) : handler G (T * W) :=
  fun X e st =>
    match h X e (snd st) with
    | Some (x, w') => Some (x, (fst st, w'))
    | None => None
    end.

(** An assignment to the struct behind the receiver. *)
Definition is_store {T X : Type} {G : Type -> Type}
           (e : sumE (receiverE T) G X) : bool :=
  match e with
  | inlE m => match m with
              | Load => false
              | Store _ => true
              end
  | inrE _ => false
  end.

Definition stores {T : Type} {G : Type -> Type}
           (o : observed (sumE (receiverE T) G)) : bool :=
  match o with
  | Returned e _ => is_store e
  | Panicked e => is_store e
  end.

(** A computation that never assigns to the struct behind the receiver,
    whatever its calls return. *)
Fixpoint no_store {T R : Type} {G : Type -> Type}
         (p : prog (sumE (receiverE T) G) R) : Prop :=
  match p with
  | Ret _ => True
  | Panic => True
  | Call e k => is_store e = false /\ forall x, no_store (k x)
  end.

(** What one call of a getter method did agrees with the table [answer]
    ([None]: the method panics); loads and assignments always agree. *)
Definition conforms {T : Type} {G : Type -> Type}
           (answer : forall X : Type, G X -> option X)
           (o : observed (sumE (receiverE T) G)) : Prop :=
  match o with
  | Returned e x =>
      match e with
      | inlE _ => True
      | inrE g => answer _ g = Some x
      end
  | Panicked e =>
      match e with
      | inlE _ => True
      | inrE g => answer _ g = None
      end
  end.

(* ===================================================================== *)
(** * Package [ecscni], Windows build: retry parameters of namespace setup *)
(* ===================================================================== *)

Module time.
(** [time.Duration] is a count of nanoseconds. *)
Definition Duration : Type := Z.
Definition Nanosecond : Duration := 1.
Definition Microsecond : Duration := 1000 * Nanosecond.
Definition Millisecond : Duration := 1000 * Microsecond.
Definition Second : Duration := 1000 * Millisecond.
End time.

Module ecscni.
Definition ECSVPCENIPluginName : string := "vpc-eni".
Definition ECSVPCENIPluginExecutable : string := "vpc-eni.exe".
Definition setupNSBackoffMin : time.Duration := time.Second.
Definition setupNSBackoffMax : time.Duration := time.Second * 3.
(** Untyped floating-point constants are exact in Go. *)
Definition setupNSBackoffJitter : Q := 2 # 10.
Definition setupNSBackoffMultiple : Q := 13 # 10.
Definition setupNSMaxRetryCount : Z := 3.

(** Modelled from the spec: how a governed setup ends, done or with the
    terminal failure that is surfaced to the task engine. *)
Inductive setupResult : Type :=
| SetupDone
| SetupFailed.

(** Modelled from the spec: the loop that consumes the retry parameters
    (the plugin client and the retry helper are not among the sources
    embedded here).  The
    setup operation is attempted again after a failure until it succeeds
    or the retry count is used up, and then surfaces as a terminal
    failure.  [op n] tells whether attempt number [n] succeeds; the
    result carries the number of attempts made. *)
Fixpoint retryN (budget attempt : nat) (op : nat -> bool)
  : nat * setupResult :=
  match budget with
  | O => (attempt, SetupFailed)
  | S budget' =>
      if op attempt then (S attempt, SetupDone)
      else retryN budget' (S attempt) op
  end.

(** Modelled from the spec: namespace setup under the retry parameters
    of this file. *)
Definition setupNS (op : nat -> bool) : nat * setupResult :=
  retryN (Z.to_nat setupNSMaxRetryCount) 0 op.
End ecscni.

(* ===================================================================== *)
(** * Package [statechange] *)
(* ===================================================================== *)

(** What the package imports from packages that are not part of this
    development: the status domains, the ECS model structs, the ENI
    attachment and [time.Time], each with its [String] method, and the
    dynamic values a metadata-getter interface can hold.  The [String]
    of a value is taken to return.  A network binding stands for the
    pointer as [%v] prints it; sub-events and attachments are held through
    pointers that can be nil. *)
Class Imports : Type := {
  (* apicontainerstatus, apitaskstatus *)
  ContainerStatus : Type;
  ContainerStatus_String :: Stringer ContainerStatus;
  TaskStatus : Type;
  TaskStatus_String :: Stringer TaskStatus;
  (* ecs *)
  ecs_NetworkBinding : Type;
  ecs_NetworkBinding_String :: Stringer ecs_NetworkBinding;
  ecs_ContainerStateChange : Type;
  ecs_ContainerStateChange_String :: Stringer ecs_ContainerStateChange;
  ecs_ManagedAgentStateChange : Type;
  ecs_ManagedAgentStateChange_String :: Stringer ecs_ManagedAgentStateChange;
  (* ni *)
  ni_AttachmentStatus : Type;
  ni_AttachmentStatus_String :: Stringer ni_AttachmentStatus;
  ni_ENIAttachment : Type;
  ni_AttachmentARN : ni_ENIAttachment -> string;
  ni_Status : ni_ENIAttachment -> ni_AttachmentStatus;
  ni_ENIAttachment_String :: Stringer ni_ENIAttachment;
  (* time *)
  time_Time : Type;
  time_Time_String :: Stringer time_Time;
  (* non-nil values of the two getter interfaces *)
  containerGetter : Type;
  taskGetter : Type
}.

Section StateChange.
Context {imports : Imports}.

(** ContainerMetadataGetter retrieves specific information about a given
    container; one constructor per method, indexed by the result type. *)
Inductive ContainerMetadataGetter : Type -> Type :=
| GetContainerIsNil (g : containerGetter) : ContainerMetadataGetter bool
| GetContainerSentStatusString (g : containerGetter)
  : ContainerMetadataGetter string
| GetContainerRuntimeID (g : containerGetter) : ContainerMetadataGetter string
| GetContainerIsEssential (g : containerGetter) : ContainerMetadataGetter bool.

(** TaskMetadataGetter retrieves specific information about a given task. *)
Inductive TaskMetadataGetter : Type -> Type :=
| GetTaskIsNil (g : taskGetter) : TaskMetadataGetter bool
| GetTaskSentStatusString (g : taskGetter) : TaskMetadataGetter string
| GetTaskPullStartedAt (g : taskGetter) : TaskMetadataGetter time_Time
| GetTaskPullStoppedAt (g : taskGetter) : TaskMetadataGetter time_Time
| GetTaskExecutionStoppedAt (g : taskGetter) : TaskMetadataGetter time_Time.

(** ContainerStateChange: a state change to be sent to the
    SubmitContainerStateChange API.  A nil pointer, and a nil interface
    value, is [None]. *)
Record ContainerStateChange : Type := {
  TaskArn : string;
  RuntimeID : string;
  ContainerName : string;
  Status : ContainerStatus;
  ImageDigest : string;
  Reason : string;
  ExitCode : option Z;
  NetworkBindings : list ecs_NetworkBinding;
  MetadataGetter : option containerGetter
}.

(** TaskStateChange: a state change to be sent to the
    SubmitTaskStateChange API. *)
Record TaskStateChange : Type := {
  Task_Attachment : option ni_ENIAttachment;
  TaskARN : string;
  Task_Status : TaskStatus;
  Task_Reason : string;
  Containers : list (option ecs_ContainerStateChange);
  ManagedAgents : list (option ecs_ManagedAgentStateChange);
  PullStartedAt : option time_Time;
  PullStoppedAt : option time_Time;
  ExecutionStoppedAt : option time_Time;
  Task_MetadataGetter : option taskGetter
}.

(** AttachmentStateChange: a state change to be sent to the
    SubmitAttachmentStateChanges API. *)
Record AttachmentStateChange : Type := {
  Attachment : option ni_ENIAttachment
}.

Local Open Scope prog_scope.

(** Method [String] of [ContainerStateChange] (pointer receiver): a human readable
    representation. *)
Definition ContainerStateChange_String (c : ContainerStateChange)
  : prog ContainerMetadataGetter string :=
  let res := fmt.Sprintf "containerName=%s containerStatus=%s"
               [ContainerName c; GoString (Status c)] in
  let res := match ExitCode c with
             | Some code => res ++ " containerExitCode=" ++ strconv.Itoa code
             | None => res
             end in
  let res := if negb (Reason c =? "")%string
             then res ++ " containerReason=" ++ Reason c
             else res in
  let res := if negb (length (NetworkBindings c) =? 0)%nat
             then res ++ fmt.Sprintf " containerNetworkBindings=%v"
                           [fmt.v_slice (NetworkBindings c)]
             else res in
  match MetadataGetter c with
  | None => Ret res
  | Some g =>
      isNil <- call (GetContainerIsNil g) ;;
      if negb isNil then
        sent <- call (GetContainerSentStatusString g) ;;
        runtimeID <- call (GetContainerRuntimeID g) ;;
        essential <- call (GetContainerIsEssential g) ;;
        Ret (res ++ fmt.Sprintf
               " containerKnownSentStatus=%s containerRuntimeID=%s containerIsEssential=%v"
               [sent; runtimeID; fmt.v_bool essential])
      else Ret res
  end.

(** Method [String] of [TaskStateChange] (pointer receiver): a human readable
    representation. *)
Definition TaskStateChange_String (change : TaskStateChange)
  : prog TaskMetadataGetter string :=
  let res := fmt.Sprintf "%s -> %s"
               [TaskARN change; GoString (Task_Status change)] in
  res <- match Task_MetadataGetter change with
         | None => Ret res
         | Some g =>
             isNil <- call (GetTaskIsNil g) ;;
             if negb isNil then
               sent <- call (GetTaskSentStatusString g) ;;
               pullStarted <- call (GetTaskPullStartedAt g) ;;
               pullStopped <- call (GetTaskPullStoppedAt g) ;;
               executionStopped <- call (GetTaskExecutionStoppedAt g) ;;
               Ret (res ++ fmt.Sprintf
                      ", Known Sent: %s, PullStartedAt: %s, PullStoppedAt: %s, ExecutionStoppedAt: %s"
                      [sent; GoString pullStarted; GoString pullStopped;
                       GoString executionStopped])
             else Ret res
         end ;;
  let res := match Task_Attachment change with
             | Some a => res ++ ", " ++ GoString a
             | None => res
             end in
  res <- for_range (Containers change)
           (fun res containerChange =>
              text <- pointer_String containerChange ;;
              Ret (res ++ ", container change: " ++ text))
           res ;;
  res <- for_range (ManagedAgents change)
           (fun res managedAgentChange =>
              text <- pointer_String managedAgentChange ;;
              Ret (res ++ ", managed agent: " ++ text))
           res ;;
  Ret res.

(** Method [String] of [AttachmentStateChange] (pointer receiver): a human readable
    representation. *)
Definition AttachmentStateChange_String (change : AttachmentStateChange)
  : string :=
  match Attachment change with
  | Some a =>
      fmt.Sprintf "%s -> %s, %s"
        [ni_AttachmentARN a; GoString (ni_Status a); GoString a]
  | None => ""
  end.

(** ** The same methods, with the receiver in memory

    A method with a pointer receiver reads its struct field by field at
    the moment it uses the field.  The definitions below keep every such
    read, and every assignment the method makes (none), as an event. *)

(** Reading through a pointer held by a field of the receiver; a nil
    pointer panics. *)
Definition deref {T A B : Type} {G : Type -> Type} (f : T -> option A) (g : A -> B)
  : prog (sumE (receiverE T) G) B :=
  a <- field f ;;
  match a with
  | Some a => Ret (g a)
  | None => Panic
  end.

Definition ContainerStateChange_String_ptr
  : prog (sumE (receiverE ContainerStateChange) ContainerMetadataGetter) string :=
  name <- field ContainerName ;;
  status <- field Status ;;
  let res := fmt.Sprintf "containerName=%s containerStatus=%s"
               [name; GoString status] in
  exitCode <- field ExitCode ;;
  res <- match exitCode with
         | Some _ =>
             code <- deref ExitCode (fun code => code) ;;
             Ret (res ++ " containerExitCode=" ++ strconv.Itoa code)
         | None => Ret res
         end ;;
  reason <- field Reason ;;
  res <- (if negb (reason =? "")%string
          then reason <- field Reason ;;
               Ret (res ++ " containerReason=" ++ reason)
          else Ret res) ;;
  bindings <- field NetworkBindings ;;
  res <- (if negb (length bindings =? 0)%nat
          then bindings <- field NetworkBindings ;;
               Ret (res ++ fmt.Sprintf " containerNetworkBindings=%v"
                             [fmt.v_slice bindings])
          else Ret res) ;;
  getter <- field MetadataGetter ;;
  match getter with
  | None => Ret res
  | Some _ =>
      isNil <- on_interface MetadataGetter GetContainerIsNil ;;
      if negb isNil then
        sent <- on_interface MetadataGetter GetContainerSentStatusString ;;
        runtimeID <- on_interface MetadataGetter GetContainerRuntimeID ;;
        essential <- on_interface MetadataGetter GetContainerIsEssential ;;
        Ret (res ++ fmt.Sprintf
               " containerKnownSentStatus=%s containerRuntimeID=%s containerIsEssential=%v"
               [sent; runtimeID; fmt.v_bool essential])
      else Ret res
  end.

Definition TaskStateChange_String_ptr
  : prog (sumE (receiverE TaskStateChange) TaskMetadataGetter) string :=
  taskARN <- field TaskARN ;;
  status <- field Task_Status ;;
  let res := fmt.Sprintf "%s -> %s" [taskARN; GoString status] in
  getter <- field Task_MetadataGetter ;;
  res <- match getter with
         | None => Ret res
         | Some _ =>
             isNil <- on_interface Task_MetadataGetter GetTaskIsNil ;;
             if negb isNil then
               sent <- on_interface Task_MetadataGetter GetTaskSentStatusString ;;
               pullStarted <- on_interface Task_MetadataGetter GetTaskPullStartedAt ;;
               pullStopped <- on_interface Task_MetadataGetter GetTaskPullStoppedAt ;;
               executionStopped <-
                 on_interface Task_MetadataGetter GetTaskExecutionStoppedAt ;;
               Ret (res ++ fmt.Sprintf
                      ", Known Sent: %s, PullStartedAt: %s, PullStoppedAt: %s, ExecutionStoppedAt: %s"
                      [sent; GoString pullStarted; GoString pullStopped;
                       GoString executionStopped])
             else Ret res
         end ;;
  attachment <- field Task_Attachment ;;
  res <- match attachment with
         | Some _ =>
             text <- deref Task_Attachment GoString ;;
             Ret (res ++ ", " ++ text)
         | None => Ret res
         end ;;
  containers <- field Containers ;;
  res <- for_range containers
           (fun res containerChange =>
              text <- pointer_String containerChange ;;
              Ret (res ++ ", container change: " ++ text))
           res ;;
  agents <- field ManagedAgents ;;
  res <- for_range agents
           (fun res managedAgentChange =>
              text <- pointer_String managedAgentChange ;;
              Ret (res ++ ", managed agent: " ++ text))
           res ;;
  Ret res.

Definition AttachmentStateChange_String_ptr
  : prog (sumE (receiverE AttachmentStateChange) noE) string :=
  attachment <- field Attachment ;;
  match attachment with
  | Some _ =>
      attachmentARN <- deref Attachment ni_AttachmentARN ;;
      status <- deref Attachment (fun a => GoString (ni_Status a)) ;;
      text <- deref Attachment GoString ;;
      Ret (fmt.Sprintf "%s -> %s, %s" [attachmentARN; status; text])
  | None => Ret ""
  end.

End StateChange.

(* ===================================================================== *)
(** * The clauses of the renderings, as the specification lists them *)
(* ===================================================================== *)

Section Clauses.
Context {imports : Imports}.

(** Clause 1 of a container rendering, always present. *)
Definition container_header (name : string) (status : ContainerStatus)
  : string :=
  "containerName=" ++ name ++ " containerStatus=" ++ GoString status.

(** Clause 2: the exit code, if set. *)
Definition exit_code_clause (exitCode : option Z) : string :=
  match exitCode with
  | Some code => " containerExitCode=" ++ strconv.Itoa code
  | None => ""
  end.

(** Clause 3: the reason, if not empty. *)
Definition reason_clause (reason : string) : string :=
  match reason with
  | EmptyString => ""
  | _ => " containerReason=" ++ reason
  end.

(** Clause 4: the network bindings, if there are any. *)
Definition bindings_clause (bindings : list ecs_NetworkBinding) : string :=
  match bindings with
  | [] => ""
  | _ => " containerNetworkBindings=" ++ fmt.v_slice bindings
  end.

(** Clause 5: what a valid container getter reports. *)
Definition container_metadata_clause
           (sent runtimeID : string) (essential : bool) : string :=
  " containerKnownSentStatus=" ++ sent ++ " containerRuntimeID=" ++ runtimeID
  ++ " containerIsEssential=" ++ fmt.v_bool essential.

(** Clauses 1 to 4: the part of a container rendering read off the
    fields of the event. *)
Definition container_fields (c : ContainerStateChange) : string :=
  container_header (ContainerName c) (Status c)
  ++ exit_code_clause (ExitCode c)
  ++ reason_clause (Reason c)
  ++ bindings_clause (NetworkBindings c).

(** Task rendering, clause 1: the task line. *)
Definition task_line (change : TaskStateChange) : string :=
  TaskARN change ++ " -> " ++ GoString (Task_Status change).

(** Clause 2: what a valid task getter reports. *)
Definition task_metadata_clause
           (sent : string) (pullStarted pullStopped executionStopped : time_Time)
  : string :=
  ", Known Sent: " ++ sent ++ ", PullStartedAt: " ++ GoString pullStarted
  ++ ", PullStoppedAt: " ++ GoString pullStopped
  ++ ", ExecutionStoppedAt: " ++ GoString executionStopped.

(** Clause 3: the attachment, if set. *)
Definition attachment_clause (attachment : option ni_ENIAttachment) : string :=
  match attachment with
  | Some a => ", " ++ GoString a
  | None => ""
  end.

(** Clause 4: one clause per container sub-event, in sequence order. *)
Definition container_change_clauses (l : list ecs_ContainerStateChange)
  : string :=
  String.concat "" (map (fun cc => ", container change: " ++ GoString cc) l).

(** Clause 5: one clause per managed-agent sub-event, in sequence order. *)
Definition managed_agent_clauses (l : list ecs_ManagedAgentStateChange)
  : string :=
  String.concat "" (map (fun m => ", managed agent: " ++ GoString m) l).

(** The structs behind the non-nil pointers of a sequence, in order. *)
Fixpoint non_nil {A : Type} (l : list (option A)) : list A :=
  match l with
  | [] => []
  | Some a :: l' => a :: non_nil l'
  | None :: l' => non_nil l'
  end.

(** No pointer of the sequence is nil. *)
Definition all_set {A : Type} (l : list (option A)) : bool :=
  forallb (fun p => match p with Some _ => true | None => false end) l.

(** No sub-event pointer of the task is nil. *)
Definition sub_events_set (change : TaskStateChange) : bool :=
  all_set (Containers change) && all_set (ManagedAgents change).

(** Clauses 3 to 5: the part of a task rendering that follows the
    metadata clause. *)
Definition task_tail (change : TaskStateChange) : string :=
  attachment_clause (Task_Attachment change)
  ++ container_change_clauses (non_nil (Containers change))
  ++ managed_agent_clauses (non_nil (ManagedAgents change)).

(** A call on a container getter other than the nil-check. *)
Definition container_accessor (o : observed ContainerMetadataGetter) : bool :=
  match o with
  | Returned e _ | Panicked e =>
      match e with
      | GetContainerIsNil _ => false
      | _ => true
      end
  end.

(** A call on a task getter other than the nil-check. *)
Definition task_accessor (o : observed TaskMetadataGetter) : bool :=
  match o with
  | Returned e _ | Panicked e =>
      match e with
      | GetTaskIsNil _ => false
      | _ => true
      end
  end.

(** Clause 5 of a container rendering as the getter yields it from world
    [w]: nothing when no getter is supplied or its nil-check is true,
    the metadata clause when the nil-check is false; with the world the
    calls leave behind.  [None]: a method panicked. *)
Definition container_metadata {W : Type}
           (h : handler ContainerMetadataGetter W) (w : W)
           (getter : option containerGetter) : option (string * W) :=
  match getter with
  | None => Some ("", w)
  | Some g =>
      match h _ (GetContainerIsNil g) w with
      | None => None
      | Some (true, w1) => Some ("", w1)
      | Some (false, w1) =>
          match h _ (GetContainerSentStatusString g) w1 with
          | None => None
          | Some (sent, w2) =>
              match h _ (GetContainerRuntimeID g) w2 with
              | None => None
              | Some (runtimeID, w3) =>
                  match h _ (GetContainerIsEssential g) w3 with
                  | None => None
                  | Some (essential, w4) =>
                      Some (container_metadata_clause sent runtimeID essential, w4)
                  end
              end
          end
      end
  end.

(** Clause 2 of a task rendering as the getter yields it from world [w]. *)
Definition task_metadata {W : Type}
           (h : handler TaskMetadataGetter W) (w : W)
           (getter : option taskGetter) : option (string * W) :=
  match getter with
  | None => Some ("", w)
  | Some g =>
      match h _ (GetTaskIsNil g) w with
      | None => None
      | Some (true, w1) => Some ("", w1)
      | Some (false, w1) =>
          match h _ (GetTaskSentStatusString g) w1 with
          | None => None
          | Some (sent, w2) =>
              match h _ (GetTaskPullStartedAt g) w2 with
              | None => None
              | Some (started, w3) =>
                  match h _ (GetTaskPullStoppedAt g) w3 with
                  | None => None
                  | Some (stopped, w4) =>
                      match h _ (GetTaskExecutionStoppedAt g) w4 with
                      | None => None
                      | Some (executionStopped, w5) =>
                          Some (task_metadata_clause sent started stopped
                                  executionStopped, w5)
                      end
                  end
              end
          end
      end
  end.

(** How a task rendering ends once the task line and the metadata clause
    are in [res]: with the tail, unless a sub-event pointer is nil, on
    which the renderer panics. *)
Definition task_finish {W : Type} (change : TaskStateChange) (res : string) (w : W)
  : option (string * W) :=
  if sub_events_set change then Some (res ++ task_tail change, w) else None.

(** The getter is supplied and its nil-check, called in world [w],
    returns false. *)
Definition container_getter_valid {W : Type}
           (h : handler ContainerMetadataGetter W) (w : W)
           (getter : option containerGetter) : Prop :=
  exists (g : containerGetter) (w1 : W),
    getter = Some g /\ h _ (GetContainerIsNil g) w = Some (false, w1).

Definition task_getter_valid {W : Type}
           (h : handler TaskMetadataGetter W) (w : W)
           (getter : option taskGetter) : Prop :=
  exists (g : taskGetter) (w1 : W),
    getter = Some g /\ h _ (GetTaskIsNil g) w = Some (false, w1).
End Clauses.

(* ===================================================================== *)
(** * A concrete environment, for running the renderers *)
(* ===================================================================== *)

Module Sample.
(** A stand-in for the container-status domain of package
    apicontainerstatus: the two statuses the scenarios name, each printed
    by its name. *)
Inductive containerStatus : Type :=
| ContainerRunning
| ContainerStopped.

Definition containerStatus_String (s : containerStatus) : string :=
  match s with
  | ContainerRunning => "RUNNING"
  | ContainerStopped => "STOPPED"
  end.

(** A stand-in for the task-status domain of package apitaskstatus. *)
Inductive taskStatus : Type :=
| TaskRunning
| TaskStopped.

Definition taskStatus_String (s : taskStatus) : string :=
  match s with
  | TaskRunning => "RUNNING"
  | TaskStopped => "STOPPED"
  end.

(** An attachment: its ARN, its status and its own rendering. *)
Record eniAttachment : Type := {
  arn : string;
  status : string;
  detail : string
}.

#[export] Instance imports : Imports := {|
  ContainerStatus := containerStatus;
  ContainerStatus_String := containerStatus_String;
  TaskStatus := taskStatus;
  TaskStatus_String := taskStatus_String;
  ecs_NetworkBinding := string;
  ecs_NetworkBinding_String := Stringer_string;
  ecs_ContainerStateChange := string;
  ecs_ContainerStateChange_String := Stringer_string;
  ecs_ManagedAgentStateChange := string;
  ecs_ManagedAgentStateChange_String := Stringer_string;
  ni_AttachmentStatus := string;
  ni_AttachmentStatus_String := Stringer_string;
  ni_ENIAttachment := eniAttachment;
  ni_AttachmentARN := arn;
  ni_Status := status;
  ni_ENIAttachment_String := detail;
  time_Time := string;
  time_Time_String := Stringer_string;
  containerGetter := nat;
  taskGetter := nat
|}.

(** The container behind a getter, as far as the getter shows it. *)
Record liveContainer : Type := {
  sentStatus : string;
  runtimeID : string;
  essential : bool
}.

(** Getter 1 wraps a live container; every other getter wraps nothing. *)
Definition backing (g : nat) : option liveContainer :=
  match g with
  | 1%nat => Some {| sentStatus := "PULLED"; runtimeID := "abc123";
                     essential := true |}
  | _ => None
  end.

Definition is_void (g : nat) : bool :=
  match backing g with
  | Some _ => false
  | None => true
  end.

(** A stand-in for the task engine's implementation of
    ContainerMetadataGetter.  The nil-check is always safe; the other
    accessors dereference the wrapped container and panic when there is
    none.  The world counts the calls served. *)
Definition container_engine : handler ContainerMetadataGetter nat :=
  fun X e served =>
    match e in ContainerMetadataGetter X return option (X * nat) with
    | GetContainerIsNil g => Some (is_void g, S served)
    | GetContainerSentStatusString g =>
        option_map (fun c => (sentStatus c, S served)) (backing g)
    | GetContainerRuntimeID g =>
        option_map (fun c => (runtimeID c, S served)) (backing g)
    | GetContainerIsEssential g =>
        option_map (fun c => (essential c, S served)) (backing g)
    end.

Definition container_answer (X : Type) (e : ContainerMetadataGetter X)
  : option X :=
  match e in ContainerMetadataGetter X return option X with
  | GetContainerIsNil g => Some (is_void g)
  | GetContainerSentStatusString g => option_map sentStatus (backing g)
  | GetContainerRuntimeID g => option_map runtimeID (backing g)
  | GetContainerIsEssential g => option_map essential (backing g)
  end.

(** The task behind a getter. *)
Record liveTask : Type := {
  taskSentStatus : string;
  pullStartedAt : string;
  pullStoppedAt : string;
  executionStoppedAt : string
}.

Definition task_backing (g : nat) : option liveTask :=
  match g with
  | 1%nat => Some {| taskSentStatus := "NONE";
                     pullStartedAt := "2021-01-01 00:00:00 +0000 UTC";
                     pullStoppedAt := "2021-01-01 00:00:05 +0000 UTC";
                     executionStoppedAt := "0001-01-01 00:00:00 +0000 UTC" |}
  | _ => None
  end.

(** A stand-in for the task engine's implementation of
    TaskMetadataGetter, on the same pattern. *)
Definition task_engine : handler TaskMetadataGetter nat :=
  fun X e served =>
    match e in TaskMetadataGetter X return option (X * nat) with
    | GetTaskIsNil g =>
        Some (match task_backing g with Some _ => false | None => true end,
              S served)
    | GetTaskSentStatusString g =>
        option_map (fun t => (taskSentStatus t, S served)) (task_backing g)
    | GetTaskPullStartedAt g =>
        option_map (fun t => (pullStartedAt t, S served)) (task_backing g)
    | GetTaskPullStoppedAt g =>
        option_map (fun t => (pullStoppedAt t, S served)) (task_backing g)
    | GetTaskExecutionStoppedAt g =>
        option_map (fun t => (executionStoppedAt t, S served)) (task_backing g)
    end.

Definition task_answer (X : Type) (e : TaskMetadataGetter X) : option X :=
  match e in TaskMetadataGetter X return option X with
  | GetTaskIsNil g =>
      Some (match task_backing g with Some _ => false | None => true end)
  | GetTaskSentStatusString g => option_map taskSentStatus (task_backing g)
  | GetTaskPullStartedAt g => option_map pullStartedAt (task_backing g)
  | GetTaskPullStoppedAt g => option_map pullStoppedAt (task_backing g)
  | GetTaskExecutionStoppedAt g =>
      option_map executionStoppedAt (task_backing g)
  end.

(** The two container scenarios of the spec, then one event per state of
    the getter. *)
Definition web_running : ContainerStateChange := {|
  TaskArn := "arn:aws:ecs:task/1"; RuntimeID := "abc123";
  ContainerName := "web"; Status := ContainerRunning; ImageDigest := "";
  Reason := ""; ExitCode := None; NetworkBindings := [];
  MetadataGetter := None |}.

Definition web_stopped : ContainerStateChange := {|
  TaskArn := "arn:aws:ecs:task/1"; RuntimeID := "abc123";
  ContainerName := "web"; Status := ContainerStopped; ImageDigest := "";
  Reason := "OOMKilled"; ExitCode := Some 1; NetworkBindings := [];
  MetadataGetter := None |}.

Definition web_void : ContainerStateChange := {|
  TaskArn := "arn:aws:ecs:task/1"; RuntimeID := "abc123";
  ContainerName := "web"; Status := ContainerRunning; ImageDigest := "";
  Reason := ""; ExitCode := None; NetworkBindings := ["80->8080"; "443->8443"];
  MetadataGetter := Some 0%nat |}.

Definition web_live : ContainerStateChange := {|
  TaskArn := "arn:aws:ecs:task/1"; RuntimeID := "abc123";
  ContainerName := "web"; Status := ContainerStopped; ImageDigest := "";
  Reason := "OOMKilled"; ExitCode := Some (-1); NetworkBindings := ["80->8080"];
  MetadataGetter := Some 1%nat |}.

(** [web_live] as another task and runtime would carry it. *)
Definition web_live_elsewhere : ContainerStateChange := {|
  TaskArn := "arn:aws:ecs:task/2"; RuntimeID := "ffff";
  ContainerName := "web"; Status := ContainerStopped;
  ImageDigest := "sha256:00";
  Reason := "OOMKilled"; ExitCode := Some (-1); NetworkBindings := ["80->8080"];
  MetadataGetter := Some 1%nat |}.

Definition eni : eniAttachment := {|
  arn := "arn:att"; status := "ATTACHED"; detail := "ENI Attachment: mac=0a:1b" |}.

Definition attached : AttachmentStateChange := {| Attachment := Some eni |}.

Definition detached : AttachmentStateChange := {| Attachment := None |}.

Definition task_running : TaskStateChange := {|
  Task_Attachment := None; TaskARN := "arn:1"; Task_Status := TaskRunning;
  Task_Reason := ""; Containers := [Some "c1"]; ManagedAgents := [];
  PullStartedAt := None; PullStoppedAt := None; ExecutionStoppedAt := None;
  Task_MetadataGetter := None |}.

Definition task_live : TaskStateChange := {|
  Task_Attachment := Some eni; TaskARN := "arn:1"; Task_Status := TaskStopped;
  Task_Reason := ""; Containers := [Some "c1"; Some "c2"];
  ManagedAgents := [Some "m1"; Some "m2"];
  PullStartedAt := None; PullStoppedAt := None; ExecutionStoppedAt := None;
  Task_MetadataGetter := Some 1%nat |}.

(** A getter that wraps a live container whatever it is asked about. *)
Definition container_stub : handler ContainerMetadataGetter nat :=
  fun X e served =>
    match e in ContainerMetadataGetter X return option (X * nat) with
    | GetContainerIsNil _ => Some (false, S served)
    | GetContainerSentStatusString _ => Some ("RUNNING", S served)
    | GetContainerRuntimeID _ => Some ("abc123", S served)
    | GetContainerIsEssential _ => Some (false, S served)
    end.

Definition task_stub : handler TaskMetadataGetter nat :=
  fun X e served =>
    match e in TaskMetadataGetter X return option (X * nat) with
    | GetTaskIsNil _ => Some (false, S served)
    | GetTaskSentStatusString _ => Some ("RUNNING", S served)
    | GetTaskPullStartedAt _ => Some ("t0", S served)
    | GetTaskPullStoppedAt _ => Some ("t1", S served)
    | GetTaskExecutionStoppedAt _ => Some ("t2", S served)
    end.

(** [task_live] with other values in the fields the renderer skips. *)
Definition task_live_elsewhere : TaskStateChange := {|
  Task_Attachment := Some eni; TaskARN := "arn:1"; Task_Status := TaskStopped;
  Task_Reason := "Essential container in task exited";
  Containers := [Some "c1"; Some "c2"]; ManagedAgents := [Some "m1"; Some "m2"];
  PullStartedAt := Some "2020-02-02 00:00:00 +0000 UTC";
  PullStoppedAt := Some "2020-02-02 00:00:09 +0000 UTC";
  ExecutionStoppedAt := Some "2020-02-03 00:00:00 +0000 UTC";
  Task_MetadataGetter := Some 1%nat |}.

(** [web_void] without its getter. *)
Definition web_bare : ContainerStateChange := {|
  TaskArn := "arn:aws:ecs:task/1"; RuntimeID := "abc123";
  ContainerName := "web"; Status := ContainerRunning; ImageDigest := "";
  Reason := ""; ExitCode := None; NetworkBindings := ["80->8080"; "443->8443"];
  MetadataGetter := None |}.

(** A task with a nil pointer among its sub-events. *)
Definition task_nil_sub_event : TaskStateChange := {|
  Task_Attachment := None; TaskARN := "arn:1"; Task_Status := TaskRunning;
  Task_Reason := ""; Containers := [Some "c1"]; ManagedAgents := [None];
  PullStartedAt := None; PullStoppedAt := None; ExecutionStoppedAt := None;
  Task_MetadataGetter := None |}.

(** A task whose getter wraps nothing. *)
Definition task_void : TaskStateChange := {|
  Task_Attachment := Some eni; TaskARN := "arn:1"; Task_Status := TaskStopped;
  Task_Reason := ""; Containers := [Some "c1"]; ManagedAgents := [Some "m1"];
  PullStartedAt := None; PullStoppedAt := None; ExecutionStoppedAt := None;
  Task_MetadataGetter := Some 0%nat |}.
End Sample.

(* ===================================================================== *)
(** * Strings *)
(* ===================================================================== *)

Lemma append_nil_r (s : string) : s ++ "" = s.
Proof. induction s as [|ch s IH]; cbn; [reflexivity | now rewrite IH]. Qed.

Lemma append_assoc (s t u : string) : (s ++ t) ++ u = s ++ t ++ u.
Proof. induction s as [|ch s IH]; cbn; [reflexivity | now rewrite IH]. Qed.

Lemma length_append (s t : string) :
  String.length (s ++ t) = (String.length s + String.length t)%nat.
Proof. induction s as [|ch s IH]; cbn; [reflexivity | now rewrite IH]. Qed.

Lemma append_inv_head (s t u : string) : s ++ t = s ++ u -> t = u.
Proof.
  induction s as [|ch s IH]; cbn; intros H; [exact H|].
  injection H as H. auto.
Qed.

Lemma append_eq_self (s t : string) : s ++ t = s <-> t = "".
Proof.
  split; intros H.
  - apply (append_inv_head s). now rewrite append_nil_r.
  - subst t. apply append_nil_r.
Qed.

Lemma prefix_append (p rest : string) : String.prefix p (p ++ rest) = true.
Proof.
  induction p as [|ch p IH]; cbn.
  - now destruct rest.
  - destruct (ascii_dec ch ch) as [_|ne]; [exact IH | now destruct ne].
Qed.

Lemma HasPrefix_append (p rest : string) : strings.HasPrefix (p ++ rest) p = true.
Proof. apply prefix_append. Qed.

Lemma Contains_middle (before sub after : string) :
  strings.Contains (before ++ sub ++ after) sub.
Proof. now exists before, after. Qed.

Lemma concat_nosep_app (l1 l2 : list string) :
  String.concat "" (l1 ++ l2) = String.concat "" l1 ++ String.concat "" l2.
Proof.
  induction l1 as [|a l1 IH]; [reflexivity|].
  destruct l1 as [|b l1].
  - cbn. destruct l2; cbn; [now rewrite append_nil_r | reflexivity].
  - change (a ++ String.concat "" ((b :: l1) ++ l2)
            = (a ++ String.concat "" (b :: l1)) ++ String.concat "" l2).
    now rewrite IH, append_assoc.
Qed.

(** The format strings of the package, applied. *)
Lemma Sprintf_container_header (name status : string) :
  fmt.Sprintf "containerName=%s containerStatus=%s" [name; status]
  = "containerName=" ++ name ++ " containerStatus=" ++ status.
Proof. cbn. now rewrite append_nil_r. Qed.

Lemma Sprintf_bindings (operand : string) :
  fmt.Sprintf " containerNetworkBindings=%v" [operand]
  = " containerNetworkBindings=" ++ operand.
Proof. cbn. now rewrite append_nil_r. Qed.

Lemma Sprintf_container_metadata (sent runtimeID essential : string) :
  fmt.Sprintf
    " containerKnownSentStatus=%s containerRuntimeID=%s containerIsEssential=%v"
    [sent; runtimeID; essential]
  = " containerKnownSentStatus=" ++ sent ++ " containerRuntimeID=" ++ runtimeID
    ++ " containerIsEssential=" ++ essential.
Proof. cbn. now rewrite append_nil_r. Qed.

Lemma Sprintf_task_line (taskARN status : string) :
  fmt.Sprintf "%s -> %s" [taskARN; status] = taskARN ++ " -> " ++ status.
Proof. cbn. now rewrite append_nil_r. Qed.

Lemma Sprintf_task_metadata (sent started stopped executionStopped : string) :
  fmt.Sprintf
    ", Known Sent: %s, PullStartedAt: %s, PullStoppedAt: %s, ExecutionStoppedAt: %s"
    [sent; started; stopped; executionStopped]
  = ", Known Sent: " ++ sent ++ ", PullStartedAt: " ++ started
    ++ ", PullStoppedAt: " ++ stopped ++ ", ExecutionStoppedAt: " ++ executionStopped.
Proof. cbn. now rewrite append_nil_r. Qed.

Lemma Sprintf_attachment (attachmentARN status detail : string) :
  fmt.Sprintf "%s -> %s, %s" [attachmentARN; status; detail]
  = attachmentARN ++ " -> " ++ status ++ ", " ++ detail.
Proof. cbn. now rewrite append_nil_r. Qed.

(* ===================================================================== *)
(** * What a run of each renderer does *)
(* ===================================================================== *)

Ltac string_norm :=
  repeat (rewrite ?append_assoc, ?append_nil_r; cbn [append]).

Section Runs.
Context {imports : Imports}.
Variable W : Type.

(** The loop-free part of the container renderer builds clauses 1 to 4. *)
Lemma ContainerStateChange_String_no_getter (c : ContainerStateChange) :
  MetadataGetter c = None ->
  ContainerStateChange_String c = Ret (container_fields c).
Proof.
  destruct c as [arn rid name st dig reason code nb g]; cbn [MetadataGetter].
  intros ->. unfold ContainerStateChange_String, container_fields.
  cbn [ContainerName Status ExitCode Reason NetworkBindings MetadataGetter].
  rewrite Sprintf_container_header, Sprintf_bindings.
  unfold container_header, exit_code_clause, reason_clause, bindings_clause.
  destruct code, reason, nb; cbn [String.eqb negb length Nat.eqb];
    f_equal; string_norm; reflexivity.
Qed.

(** A run of the container renderer, call by call. *)
Lemma exec_ContainerStateChange_String
      (h : handler ContainerMetadataGetter W) (w : W) (c : ContainerStateChange) :
  exec h (ContainerStateChange_String c) w =
  match MetadataGetter c with
  | None => ([], Some (container_fields c, w))
  | Some g =>
      match h _ (GetContainerIsNil g) w with
      | None => ([Panicked (GetContainerIsNil g)], None)
      | Some (true, w1) =>
          ([Returned (GetContainerIsNil g) true], Some (container_fields c, w1))
      | Some (false, w1) =>
          match h _ (GetContainerSentStatusString g) w1 with
          | None => ([Returned (GetContainerIsNil g) false;
                      Panicked (GetContainerSentStatusString g)], None)
          | Some (sent, w2) =>
              match h _ (GetContainerRuntimeID g) w2 with
              | None => ([Returned (GetContainerIsNil g) false;
                          Returned (GetContainerSentStatusString g) sent;
                          Panicked (GetContainerRuntimeID g)], None)
              | Some (runtimeID, w3) =>
                  match h _ (GetContainerIsEssential g) w3 with
                  | None => ([Returned (GetContainerIsNil g) false;
                              Returned (GetContainerSentStatusString g) sent;
                              Returned (GetContainerRuntimeID g) runtimeID;
                              Panicked (GetContainerIsEssential g)], None)
                  | Some (essential, w4) =>
                      ([Returned (GetContainerIsNil g) false;
                        Returned (GetContainerSentStatusString g) sent;
                        Returned (GetContainerRuntimeID g) runtimeID;
                        Returned (GetContainerIsEssential g) essential],
                       Some (container_fields c
                             ++ container_metadata_clause sent runtimeID essential,
                             w4))
                  end
              end
          end
      end
  end.
Proof.
  destruct (MetadataGetter c) as [g|] eqn:Hg.
  2:{ now rewrite ContainerStateChange_String_no_getter. }
  pose proof (ContainerStateChange_String_no_getter
                {| TaskArn := TaskArn c; RuntimeID := RuntimeID c;
                   ContainerName := ContainerName c; Status := Status c;
                   ImageDigest := ImageDigest c; Reason := Reason c;
                   ExitCode := ExitCode c; NetworkBindings := NetworkBindings c;
                   MetadataGetter := None |} eq_refl) as Hres.
  unfold ContainerStateChange_String in Hres |- *.
  cbn [ContainerName Status ExitCode Reason NetworkBindings MetadataGetter] in Hres.
  apply (f_equal (fun p => match p with Ret r => r | _ => "" end)) in Hres.
  cbv beta iota in Hres. rewrite Hg. cbv zeta in Hres |- *. rewrite Hres.
  cbn [exec bind call].
  destruct (h _ (GetContainerIsNil g) w) as [[[|] w1]|]; cbn; [reflexivity| |reflexivity].
  destruct (h _ (GetContainerSentStatusString g) w1) as [[sent w2]|]; cbn; [|reflexivity].
  destruct (h _ (GetContainerRuntimeID g) w2) as [[runtimeID w3]|]; cbn; [|reflexivity].
  destruct (h _ (GetContainerIsEssential g) w3) as [[essential w4]|]; cbn; [|reflexivity].
  rewrite append_nil_r. reflexivity.
Qed.

(** A loop that appends one rendered sub-event per pointer builds the
    concatenation of the clauses, in the order of the sequence, and
    panics at the first nil pointer. *)
Lemma for_range_pointer_String
      (E : Type -> Type) (A : Type) (HA : Stringer A)
      (sep : string) (l : list (option A)) (res : string) :
  for_range l
    (fun res p => text <- pointer_String (E := E) p ;; Ret (res ++ sep ++ text))%prog
    res
  = if all_set l
    then Ret (res ++ String.concat "" (map (fun v => sep ++ GoString v) (non_nil l)))
    else Panic.
Proof.
  revert res; induction l as [|[a|] l IH]; intros res;
    cbn [for_range pointer_String bind all_set forallb non_nil map andb].
  - cbn. now rewrite append_nil_r.
  - rewrite IH. fold (all_set l). destruct (all_set l); [|reflexivity].
    f_equal. rewrite append_assoc. f_equal.
    change (cons (sep ++ GoString a) (map (fun v => sep ++ GoString v) (non_nil l)))
      with (app (cons (sep ++ GoString a) nil)
                (map (fun v => sep ++ GoString v) (non_nil l))).
    rewrite concat_nosep_app. cbn [String.concat]. now rewrite append_assoc.
  - reflexivity.
Qed.

(** The attachment test and the two loops append clauses 3 to 5. *)
Lemma task_tail_loops (change : TaskStateChange) (res : string) :
  (res <- for_range (Containers change)
            (fun res containerChange =>
               text <- pointer_String containerChange ;;
               Ret (res ++ ", container change: " ++ text))
            match Task_Attachment change with
            | Some a => res ++ ", " ++ GoString a
            | None => res
            end ;;
   res <- for_range (ManagedAgents change)
            (fun res managedAgentChange =>
               text <- pointer_String managedAgentChange ;;
               Ret (res ++ ", managed agent: " ++ text))
            res ;;
   Ret res)%prog
  = if sub_events_set change
    then Ret (E := TaskMetadataGetter) (res ++ task_tail change)
    else Panic.
Proof.
  rewrite for_range_pointer_String. unfold sub_events_set.
  destruct (all_set (Containers change)); cbn [bind andb]; [|reflexivity].
  rewrite for_range_pointer_String.
  destruct (all_set (ManagedAgents change)); cbn [bind]; [|reflexivity].
  unfold task_tail, attachment_clause, container_change_clauses,
    managed_agent_clauses.
  destruct (Task_Attachment change); string_norm; reflexivity.
Qed.

(** A run of the task renderer, call by call. *)
Lemma exec_TaskStateChange_String
      (h : handler TaskMetadataGetter W) (w : W) (change : TaskStateChange) :
  exec h (TaskStateChange_String change) w =
  match Task_MetadataGetter change with
  | None => ([], task_finish change (task_line change) w)
  | Some g =>
      match h _ (GetTaskIsNil g) w with
      | None => ([Panicked (GetTaskIsNil g)], None)
      | Some (true, w1) =>
          ([Returned (GetTaskIsNil g) true],
           task_finish change (task_line change) w1)
      | Some (false, w1) =>
          match h _ (GetTaskSentStatusString g) w1 with
          | None => ([Returned (GetTaskIsNil g) false;
                      Panicked (GetTaskSentStatusString g)], None)
          | Some (sent, w2) =>
              match h _ (GetTaskPullStartedAt g) w2 with
              | None => ([Returned (GetTaskIsNil g) false;
                          Returned (GetTaskSentStatusString g) sent;
                          Panicked (GetTaskPullStartedAt g)], None)
              | Some (started, w3) =>
                  match h _ (GetTaskPullStoppedAt g) w3 with
                  | None => ([Returned (GetTaskIsNil g) false;
                              Returned (GetTaskSentStatusString g) sent;
                              Returned (GetTaskPullStartedAt g) started;
                              Panicked (GetTaskPullStoppedAt g)], None)
                  | Some (stopped, w4) =>
                      match h _ (GetTaskExecutionStoppedAt g) w4 with
                      | None => ([Returned (GetTaskIsNil g) false;
                                  Returned (GetTaskSentStatusString g) sent;
                                  Returned (GetTaskPullStartedAt g) started;
                                  Returned (GetTaskPullStoppedAt g) stopped;
                                  Panicked (GetTaskExecutionStoppedAt g)], None)
                      | Some (executionStopped, w5) =>
                          ([Returned (GetTaskIsNil g) false;
                            Returned (GetTaskSentStatusString g) sent;
                            Returned (GetTaskPullStartedAt g) started;
                            Returned (GetTaskPullStoppedAt g) stopped;
                            Returned (GetTaskExecutionStoppedAt g) executionStopped],
                           task_finish change
                             (task_line change
                              ++ task_metadata_clause sent started stopped
                                   executionStopped) w5)
                      end
                  end
              end
          end
      end
  end.
Proof.
  assert (Hfinish : forall res w0,
             exec h (res <- for_range (Containers change)
                              (fun res containerChange =>
                                 text <- pointer_String containerChange ;;
                                 Ret (res ++ ", container change: " ++ text))
                              match Task_Attachment change with
                              | Some a => res ++ ", " ++ GoString a
                              | None => res
                              end ;;
                     res <- for_range (ManagedAgents change)
                              (fun res managedAgentChange =>
                                 text <- pointer_String managedAgentChange ;;
                                 Ret (res ++ ", managed agent: " ++ text))
                              res ;;
                     Ret res)%prog w0
             = ([], task_finish change res w0)).
  { intros res w0. rewrite task_tail_loops. unfold task_finish.
    now destruct (sub_events_set change). }
  unfold TaskStateChange_String; cbv zeta.
  rewrite Sprintf_task_line. fold (task_line change).
  destruct (Task_MetadataGetter change) as [g|]; cbn [exec bind call].
  2:{ apply Hfinish. }
  destruct (h _ (GetTaskIsNil g) w) as [[[|] w1]|]; cbn [exec bind call negb];
    [now rewrite Hfinish| |reflexivity].
  destruct (h _ (GetTaskSentStatusString g) w1) as [[sent w2]|];
    cbn [exec bind call]; [|reflexivity].
  destruct (h _ (GetTaskPullStartedAt g) w2) as [[started w3]|];
    cbn [exec bind call]; [|reflexivity].
  destruct (h _ (GetTaskPullStoppedAt g) w3) as [[stopped w4]|];
    cbn [exec bind call]; [|reflexivity].
  destruct (h _ (GetTaskExecutionStoppedAt g) w4) as [[executionStopped w5]|];
    cbn [exec bind call]; [|reflexivity].
  now rewrite Hfinish, Sprintf_task_metadata.
Qed.

(** The result of either renderer: the clauses read off the event
    around the clause the getter yields. *)
Lemma outcome_ContainerStateChange_String
      (h : handler ContainerMetadataGetter W) (w : W) (c : ContainerStateChange) :
  outcome h (ContainerStateChange_String c) w
  = option_map (fun mw => (container_fields c ++ fst mw, snd mw))
      (container_metadata h w (MetadataGetter c)).
Proof.
  unfold outcome, container_metadata. rewrite exec_ContainerStateChange_String.
  destruct (MetadataGetter c) as [g|]; cbn; [|now rewrite append_nil_r].
  destruct (h _ (GetContainerIsNil g) w) as [[[|] w1]|]; cbn;
    [now rewrite append_nil_r| |reflexivity].
  destruct (h _ (GetContainerSentStatusString g) w1) as [[sent w2]|];
    [|reflexivity].
  destruct (h _ (GetContainerRuntimeID g) w2) as [[runtimeID w3]|];
    [|reflexivity].
  now destruct (h _ (GetContainerIsEssential g) w3) as [[essential w4]|].
Qed.

Lemma outcome_TaskStateChange_String
      (h : handler TaskMetadataGetter W) (w : W) (change : TaskStateChange) :
  outcome h (TaskStateChange_String change) w
  = if sub_events_set change
    then option_map
           (fun mw => (task_line change ++ fst mw ++ task_tail change, snd mw))
           (task_metadata h w (Task_MetadataGetter change))
    else None.
Proof.
  unfold outcome, task_metadata, task_finish.
  rewrite exec_TaskStateChange_String. unfold task_finish.
  destruct (Task_MetadataGetter change) as [g|]; cbn [snd option_map fst];
    [|now destruct (sub_events_set change)].
  destruct (h _ (GetTaskIsNil g) w) as [[[|] w1]|]; cbn [snd option_map fst];
    [now destruct (sub_events_set change)| |now destruct (sub_events_set change)].
  destruct (h _ (GetTaskSentStatusString g) w1) as [[sent w2]|];
    [|now destruct (sub_events_set change)].
  destruct (h _ (GetTaskPullStartedAt g) w2) as [[started w3]|];
    [|now destruct (sub_events_set change)].
  destruct (h _ (GetTaskPullStoppedAt g) w3) as [[stopped w4]|];
    [|now destruct (sub_events_set change)].
  destruct (h _ (GetTaskExecutionStoppedAt g) w4) as [[executionStopped w5]|];
    cbn [snd option_map fst]; [|now destruct (sub_events_set change)].
  destruct (sub_events_set change); [|reflexivity].
  now rewrite append_assoc.
Qed.
End Runs.

(* ===================================================================== *)
(** * Container state changes *)
(* ===================================================================== *)

Section ContainerFacts.
Context {imports : Imports}.

Lemma container_fields_HasPrefix (c : ContainerStateChange) (rest : string) :
  strings.HasPrefix (container_fields c ++ rest)
    (container_header (ContainerName c) (Status c)) = true.
Proof.
  unfold container_fields. rewrite append_assoc. apply HasPrefix_append.
Qed.

Lemma container_metadata_clause_nonempty sent runtimeID essential :
  container_metadata_clause sent runtimeID essential <> "".
Proof. discriminate. Qed.

Lemma exit_code_clause_empty (code : option Z) :
  exit_code_clause code = "" <-> code = None.
Proof. destruct code; cbn; split; (reflexivity || discriminate). Qed.

Lemma reason_clause_empty (reason : string) :
  reason_clause reason = "" <-> reason = "".
Proof. destruct reason; cbn; split; (reflexivity || discriminate). Qed.

Lemma bindings_clause_empty (bindings : list ecs_NetworkBinding) :
  bindings_clause bindings = "" <-> bindings = [].
Proof. destruct bindings; cbn; split; (reflexivity || discriminate). Qed.
End ContainerFacts.

(** C1.  Whenever the container renderer returns, its result begins with
    [containerName=<name> containerStatus=<status>]; and it does return,
    calling nothing but the nil-check, when the event has no metadata
    getter or the getter's nil-check reports the container void. *)
Theorem C1_container_prefix_and_absent_getter
        {imports : Imports} (W : Type)
        (h : handler ContainerMetadataGetter W) (w : W) (c : ContainerStateChange) :
  let header := "containerName=" ++ ContainerName c
                ++ " containerStatus=" ++ GoString (Status c) in
  (forall (s : string) (w' : W),
      outcome h (ContainerStateChange_String c) w = Some (s, w') ->
      strings.HasPrefix s header = true)
  /\ (MetadataGetter c = None ->
      exists s, exec h (ContainerStateChange_String c) w = ([], Some (s, w))
                /\ strings.HasPrefix s header = true)
  /\ (forall (g : containerGetter) (w1 : W),
         MetadataGetter c = Some g ->
         h _ (GetContainerIsNil g) w = Some (true, w1) ->
         exists s, exec h (ContainerStateChange_String c) w
                   = ([Returned (GetContainerIsNil g) true], Some (s, w1))
                   /\ strings.HasPrefix s header = true).
Proof.
  intros header.
  pose proof (container_fields_HasPrefix c "") as Hplain.
  rewrite append_nil_r in Hplain.
  unfold outcome. rewrite exec_ContainerStateChange_String.
  split; [|split].
  - intros s w'.
    destruct (MetadataGetter c) as [g|]; cbn [snd].
    2:{ now intros [= <- _]. }
    destruct (h _ (GetContainerIsNil g) w) as [[[|] w1]|]; cbn [snd];
      [now intros [= <- _]| |discriminate].
    destruct (h _ (GetContainerSentStatusString g) w1) as [[sent w2]|];
      [|discriminate].
    destruct (h _ (GetContainerRuntimeID g) w2) as [[runtimeID w3]|];
      [|discriminate].
    destruct (h _ (GetContainerIsEssential g) w3) as [[essential w4]|];
      [|discriminate].
    cbn [snd]. intros [= <- _]. apply container_fields_HasPrefix.
  - intros ->. now exists (container_fields c).
  - intros g w1 -> ->. now exists (container_fields c).
Qed.

Lemma C1_container_prefix_and_absent_getter_witness :
  (exists s, exec Sample.container_engine
               (ContainerStateChange_String Sample.web_running) 7%nat
             = ([], Some (s, 7%nat))
             /\ strings.HasPrefix s "containerName=web containerStatus=RUNNING" = true)
  /\ (exists s, exec Sample.container_engine
                  (ContainerStateChange_String Sample.web_void) 7%nat
                = ([Returned (@GetContainerIsNil Sample.imports 0%nat) true],
                   Some (s, 8%nat))
                /\ strings.HasPrefix s "containerName=web containerStatus=RUNNING" = true)
  /\ strings.HasPrefix
       "containerName=web containerStatus=STOPPED containerExitCode=-1 containerReason=OOMKilled containerNetworkBindings=[80->8080] containerKnownSentStatus=PULLED containerRuntimeID=abc123 containerIsEssential=true"
       "containerName=web containerStatus=STOPPED" = true.
Proof.
  split; [|split].
  - exact (proj1 (proj2 (C1_container_prefix_and_absent_getter
                           Sample.container_engine 7%nat Sample.web_running))
                 eq_refl).
  - exact (proj2 (proj2 (C1_container_prefix_and_absent_getter
                           Sample.container_engine 7%nat Sample.web_void))
                 0%nat 8%nat eq_refl eq_refl).
  - exact (proj1 (C1_container_prefix_and_absent_getter
                    Sample.container_engine 7%nat Sample.web_live)
                 _ 11%nat eq_refl).
Defined.

(** C5.  The exit-code clause is emitted if and only if the exit code is
    set, whatever the status: the rendering is the header, then the
    exit-code clause, then a tail that depends neither on the exit code
    nor on the status; the clause is empty exactly for an unset exit code
    and is [ containerExitCode=<int>] for a set one, which then occurs in
    the output. *)
Theorem C5_exit_code_clause_iff_set
        {imports : Imports} (W : Type) (h : handler ContainerMetadataGetter W) (w : W)
        (taskArn runtimeID name digest reason : string)
        (bindings : list ecs_NetworkBinding) (getter : option containerGetter) :
  let event status exitCode :=
    {| TaskArn := taskArn; RuntimeID := runtimeID; ContainerName := name;
       Status := status; ImageDigest := digest; Reason := reason;
       ExitCode := exitCode; NetworkBindings := bindings;
       MetadataGetter := getter |} in
  (exists tail : option (string * W),
      forall (status : ContainerStatus) (exitCode : option Z),
        outcome h (ContainerStateChange_String (event status exitCode)) w
        = option_map
            (fun tw => (container_header name status
                        ++ exit_code_clause exitCode ++ fst tw, snd tw))
            tail)
  /\ (forall exitCode, exit_code_clause exitCode = "" <-> exitCode = None)
  /\ (forall code : Z,
         exit_code_clause (Some code) = " containerExitCode=" ++ strconv.Itoa code)
  /\ (forall (status : ContainerStatus) (code : Z) (s : string) (w' : W),
         outcome h (ContainerStateChange_String (event status (Some code))) w
         = Some (s, w') ->
         strings.Contains s (" containerExitCode=" ++ strconv.Itoa code)).
Proof.
  intros event.
  assert (Hout : forall status exitCode,
             outcome h (ContainerStateChange_String (event status exitCode)) w
             = option_map
                 (fun tw => (container_header name status
                             ++ exit_code_clause exitCode ++ fst tw, snd tw))
                 (option_map
                    (fun mw => (reason_clause reason ++ bindings_clause bindings
                                ++ fst mw, snd mw))
                    (container_metadata h w getter))).
  { intros status exitCode. rewrite outcome_ContainerStateChange_String.
    unfold event, container_fields; cbn [ContainerName Status ExitCode Reason
                                           NetworkBindings MetadataGetter].
    destruct (container_metadata h w getter) as [[m w']|]; cbn; [|reflexivity].
    now rewrite !append_assoc. }
  split; [|split; [|split]].
  - eexists. exact Hout.
  - apply exit_code_clause_empty.
  - reflexivity.
  - intros status code s w'. rewrite Hout.
    destruct (container_metadata h w getter) as [[m w1]|];
      cbn [option_map fst snd]; [|discriminate].
    intros [= <- _].
    exact (Contains_middle (container_header name status)
             (exit_code_clause (Some code))
             (reason_clause reason ++ bindings_clause bindings ++ m)).
Qed.

Lemma C5_exit_code_clause_iff_set_witness :
  strings.Contains
    "containerName=web containerStatus=STOPPED containerExitCode=-1 containerReason=OOMKilled containerNetworkBindings=[80->8080] containerKnownSentStatus=PULLED containerRuntimeID=abc123 containerIsEssential=true"
    " containerExitCode=-1".
Proof.
  exact (proj2 (proj2 (proj2
           (C5_exit_code_clause_iff_set Sample.container_engine 0%nat
              "arn:aws:ecs:task/1" "abc123" "web" "" "OOMKilled"
              ["80->8080"] (Some 1%nat))))
         Sample.ContainerStopped (-1) _ 4%nat eq_refl).
Defined.

(** C6.  The network-bindings clause is emitted if and only if the
    bindings sequence is not empty, and the reason clause if and only if
    the reason is not the empty string: the rendering is the header and
    exit-code clause, then the reason clause, then the bindings clause,
    then a tail that depends on neither field; each clause is empty
    exactly when its field is, and has the stated form otherwise. *)
Theorem C6_reason_and_bindings_clauses
        {imports : Imports} (W : Type) (h : handler ContainerMetadataGetter W) (w : W)
        (taskArn runtimeID name digest : string) (status : ContainerStatus)
        (exitCode : option Z) (getter : option containerGetter) :
  let event reason bindings :=
    {| TaskArn := taskArn; RuntimeID := runtimeID; ContainerName := name;
       Status := status; ImageDigest := digest; Reason := reason;
       ExitCode := exitCode; NetworkBindings := bindings;
       MetadataGetter := getter |} in
  (exists tail : option (string * W),
      forall (reason : string) (bindings : list ecs_NetworkBinding),
        outcome h (ContainerStateChange_String (event reason bindings)) w
        = option_map
            (fun tw => (container_header name status ++ exit_code_clause exitCode
                        ++ reason_clause reason ++ bindings_clause bindings
                        ++ fst tw, snd tw))
            tail)
  /\ (forall reason, reason_clause reason = "" <-> reason = "")
  /\ (forall reason, reason <> "" ->
                     reason_clause reason = " containerReason=" ++ reason)
  /\ (forall bindings, bindings_clause bindings = "" <-> bindings = [])
  /\ (forall bindings,
         bindings <> [] ->
         bindings_clause bindings
         = " containerNetworkBindings=" ++ fmt.v_slice bindings).
Proof.
  intros event. split; [|split; [|split; [|split]]].
  - exists (container_metadata h w getter). intros reason bindings.
    rewrite outcome_ContainerStateChange_String.
    unfold event, container_fields; cbn [ContainerName Status ExitCode Reason
                                           NetworkBindings MetadataGetter].
    destruct (container_metadata h w getter) as [[m w']|]; cbn; [|reflexivity].
    now rewrite !append_assoc.
  - apply reason_clause_empty.
  - intros [|ch reason] Hne; [now destruct Hne | reflexivity].
  - apply bindings_clause_empty.
  - intros [|b bindings] Hne; [now destruct Hne | reflexivity].
Qed.

Lemma C6_reason_and_bindings_clauses_witness :
  reason_clause "OOMKilled" = " containerReason=OOMKilled"
  /\ @bindings_clause Sample.imports ["80->8080"; "443->8443"]
     = " containerNetworkBindings=[80->8080 443->8443]".
Proof.
  split.
  - refine (proj1 (proj2 (proj2
             (C6_reason_and_bindings_clauses Sample.container_engine 0%nat
                "arn" "abc123" "web" "" Sample.ContainerStopped None None)))
             "OOMKilled" _).
    discriminate.
  - refine (proj2 (proj2 (proj2 (proj2
             (C6_reason_and_bindings_clauses Sample.container_engine 0%nat
                "arn" "abc123" "web" "" Sample.ContainerStopped None None))))
             ["80->8080"; "443->8443"] _).
    discriminate.
Defined.

(** C8.  The two container scenarios: name [web], a status that prints
    RUNNING, nothing else set, renders as
    [containerName=web containerStatus=RUNNING]; name [web], a status that
    prints STOPPED, exit code 1 and reason [OOMKilled] renders as
    [containerName=web containerStatus=STOPPED containerExitCode=1 containerReason=OOMKilled];
    neither calls a getter. *)
Theorem C8_container_scenarios
        {imports : Imports} (running stopped : ContainerStatus)
        (taskArn runtimeID digest : string) :
  GoString running = "RUNNING" ->
  GoString stopped = "STOPPED" ->
  ContainerStateChange_String
    {| TaskArn := taskArn; RuntimeID := runtimeID; ContainerName := "web";
       Status := running; ImageDigest := digest; Reason := "";
       ExitCode := None; NetworkBindings := []; MetadataGetter := None |}
  = Ret "containerName=web containerStatus=RUNNING"
  /\ ContainerStateChange_String
       {| TaskArn := taskArn; RuntimeID := runtimeID; ContainerName := "web";
          Status := stopped; ImageDigest := digest; Reason := "OOMKilled";
          ExitCode := Some 1; NetworkBindings := []; MetadataGetter := None |}
     = Ret "containerName=web containerStatus=STOPPED containerExitCode=1 containerReason=OOMKilled".
Proof.
  intros Hrunning Hstopped.
  unfold ContainerStateChange_String; cbn [ContainerName Status ExitCode Reason
                                             NetworkBindings MetadataGetter].
  rewrite Hrunning, Hstopped. split; reflexivity.
Qed.

Lemma C8_container_scenarios_witness :
  ContainerStateChange_String Sample.web_running
  = Ret "containerName=web containerStatus=RUNNING"
  /\ ContainerStateChange_String Sample.web_stopped
     = Ret "containerName=web containerStatus=STOPPED containerExitCode=1 containerReason=OOMKilled".
Proof.
  exact (@C8_container_scenarios Sample.imports
           Sample.ContainerRunning Sample.ContainerStopped
           "arn:aws:ecs:task/1" "abc123" "" eq_refl eq_refl).
Defined.

(** C10.  Two container state changes that agree on every field but
    TaskArn, RuntimeID and ImageDigest are rendered by the same
    computation: the same calls on the getter, the same string. *)
Theorem C10_unrendered_fields
        {imports : Imports} (c1 c2 : ContainerStateChange) :
  ContainerName c1 = ContainerName c2 ->
  Status c1 = Status c2 ->
  Reason c1 = Reason c2 ->
  ExitCode c1 = ExitCode c2 ->
  NetworkBindings c1 = NetworkBindings c2 ->
  MetadataGetter c1 = MetadataGetter c2 ->
  ContainerStateChange_String c1 = ContainerStateChange_String c2
  /\ forall (W : Type) (h : handler ContainerMetadataGetter W) (w : W),
      exec h (ContainerStateChange_String c1) w
      = exec h (ContainerStateChange_String c2) w.
Proof.
  intros Hname Hstatus Hreason Hcode Hbindings Hgetter.
  assert (ContainerStateChange_String c1 = ContainerStateChange_String c2) as Heq.
  { unfold ContainerStateChange_String.
    now rewrite Hname, Hstatus, Hreason, Hcode, Hbindings, Hgetter. }
  split; [exact Heq|]. intros W h w. now rewrite Heq.
Qed.

Lemma C10_unrendered_fields_witness :
  exec Sample.container_engine
    (ContainerStateChange_String Sample.web_live_elsewhere) 0%nat
  = exec Sample.container_engine
      (ContainerStateChange_String Sample.web_live) 0%nat.
Proof.
  exact (proj2 (C10_unrendered_fields Sample.web_live_elsewhere Sample.web_live
                  eq_refl eq_refl eq_refl eq_refl eq_refl eq_refl)
               nat Sample.container_engine 0%nat).
Defined.

(* ===================================================================== *)
(** * Attachment state changes *)
(* ===================================================================== *)

(** C4.  The attachment renderer returns the empty string if and only if
    the attachment reference is nil; for a set attachment the result is
    [<attachmentARN> -> <status>, <attachment's own rendering>], which is
    not empty. *)
Theorem C4_attachment_rendering_empty_iff_nil
        {imports : Imports} (change : AttachmentStateChange) :
  (AttachmentStateChange_String change = "" <-> Attachment change = None)
  /\ (forall a : ni_ENIAttachment,
         Attachment change = Some a ->
         AttachmentStateChange_String change
         = ni_AttachmentARN a ++ " -> " ++ GoString (ni_Status a) ++ ", " ++ GoString a
         /\ AttachmentStateChange_String change <> "").
Proof.
  assert (Hform : forall a, Attachment change = Some a ->
                            AttachmentStateChange_String change
                            = ni_AttachmentARN a ++ " -> " ++ GoString (ni_Status a)
                              ++ ", " ++ GoString a).
  { intros a Ha. unfold AttachmentStateChange_String. rewrite Ha.
    apply Sprintf_attachment. }
  assert (Hne : forall a, Attachment change = Some a ->
                          AttachmentStateChange_String change <> "").
  { intros a Ha. rewrite (Hform a Ha).
    destruct (ni_AttachmentARN a); discriminate. }
  split.
  - split.
    + destruct (Attachment change) as [a|] eqn:Ha; [|reflexivity].
      intros Hempty. now destruct (Hne a eq_refl).
    + intros Hnil. unfold AttachmentStateChange_String. now rewrite Hnil.
  - intros a Ha. split; [exact (Hform a Ha) | exact (Hne a Ha)].
Qed.

Lemma C4_attachment_rendering_empty_iff_nil_witness :
  AttachmentStateChange_String Sample.attached
  = "arn:att -> ATTACHED, ENI Attachment: mac=0a:1b"
  /\ AttachmentStateChange_String Sample.attached <> ""
  /\ AttachmentStateChange_String Sample.detached = "".
Proof.
  split; [|split].
  - exact (proj1 (proj2 (C4_attachment_rendering_empty_iff_nil Sample.attached)
                        Sample.eni eq_refl)).
  - exact (proj2 (proj2 (C4_attachment_rendering_empty_iff_nil Sample.attached)
                        Sample.eni eq_refl)).
  - exact (proj2 (proj1 (C4_attachment_rendering_empty_iff_nil Sample.detached))
                 eq_refl).
Defined.

(* ===================================================================== *)
(** * Retry parameters of namespace setup *)
(* ===================================================================== *)

Lemma retryN_attempts (op : nat -> bool) (budget attempt : nat) :
  (fst (ecscni.retryN budget attempt op) <= attempt + budget)%nat.
Proof.
  revert attempt; induction budget as [|budget IH]; intros attempt;
    cbn [ecscni.retryN].
  - cbn. lia.
  - destruct (op attempt); cbn [fst]; [lia|].
    specialize (IH (S attempt)). lia.
Qed.

Lemma retryN_exhausted (op : nat -> bool) (budget attempt : nat) :
  (forall n, op n = false) ->
  ecscni.retryN budget attempt op = ((attempt + budget)%nat, ecscni.SetupFailed).
Proof.
  intros Hfail. revert attempt; induction budget as [|budget IH]; intros attempt;
    cbn [ecscni.retryN].
  - now rewrite Nat.add_0_r.
  - rewrite Hfail, IH. f_equal. lia.
Qed.

(** C9.  The retry parameters of namespace setup: the max retry count is
    the constant 3, the minimum backoff is one second and the maximum
    three seconds, so the minimum does not exceed the maximum; a setup
    governed by them makes at most 3 attempts, and one that fails every
    time ends in the terminal failure after exactly 3. *)
Theorem C9_setup_retries_bounded :
  ecscni.setupNSMaxRetryCount = 3
  /\ ecscni.setupNSBackoffMin = 1 * time.Second
  /\ ecscni.setupNSBackoffMax = 3 * time.Second
  /\ time.Second = 1000000000
  /\ ecscni.setupNSBackoffMin <= ecscni.setupNSBackoffMax
  /\ (forall op : nat -> bool, (fst (ecscni.setupNS op) <= 3)%nat)
  /\ (forall op : nat -> bool,
         (forall n, op n = false) ->
         ecscni.setupNS op = (3%nat, ecscni.SetupFailed)).
Proof.
  repeat split; try reflexivity.
  - discriminate.
  - intros op. exact (retryN_attempts op 3 0).
  - intros op Hfail. exact (@retryN_exhausted op 3 0 Hfail).
Qed.

Lemma C9_setup_retries_bounded_witness :
  ecscni.setupNS (fun _ => false) = (3%nat, ecscni.SetupFailed).
Proof.
  exact (proj2 (proj2 (proj2 (proj2 (proj2 (proj2 C9_setup_retries_bounded)))))
               (fun _ => false) (fun _ => eq_refl)).
Defined.

(* ===================================================================== *)
(** * The nil-check guards every other accessor *)
(* ===================================================================== *)

Section Logs.
Variable E : Type -> Type.
Variable accessor : observed E -> bool.

Lemma log_nil_no_call (before after : list (observed E)) (o : observed E) :
  [] = (before ++ o :: after)%list -> False.
Proof. destruct before; discriminate. Qed.

Lemma log_single_no_accessor
      (first o : observed E) (before after : list (observed E)) :
  accessor first = false ->
  [first] = (before ++ o :: after)%list ->
  accessor o = true -> False.
Proof.
  intros Hfirst Hlog Ho. destruct before as [|b before]; cbn in Hlog.
  - injection Hlog as <-. congruence.
  - injection Hlog as _ Hlog. exact (log_nil_no_call _ _ _ Hlog).
Qed.

Lemma log_guarded_by_head
      (first o : observed E) (rest before after : list (observed E)) :
  accessor first = false ->
  (first :: rest)%list = (before ++ o :: after)%list ->
  accessor o = true ->
  exists rest', before = (first :: rest')%list.
Proof.
  intros Hfirst Hlog Ho. destruct before as [|b before]; cbn in Hlog.
  - injection Hlog as <- _. congruence.
  - injection Hlog as <- _. now exists before.
Qed.
End Logs.

Ltac destruct_calls h :=
  repeat match goal with
         | |- context [match h ?X ?e ?w with _ => _ end] =>
             destruct (h X e w) as [[? ?]|]
         end.

Section Guard.
Context {imports : Imports}.
Variable W : Type.

Lemma container_calls_guarded
      (h : handler ContainerMetadataGetter W) (w : W) (c : ContainerStateChange)
      (before after : list (observed ContainerMetadataGetter))
      (o : observed ContainerMetadataGetter) :
  calls h (ContainerStateChange_String c) w = (before ++ o :: after)%list ->
  container_accessor o = true ->
  exists (g : containerGetter) (w1 : W) (rest : list (observed ContainerMetadataGetter)),
    MetadataGetter c = Some g
    /\ h _ (GetContainerIsNil g) w = Some (false, w1)
    /\ before = (Returned (GetContainerIsNil g) false :: rest)%list.
Proof.
  unfold calls. rewrite exec_ContainerStateChange_String.
  destruct (MetadataGetter c) as [g|]; cbn [fst].
  2:{ intros Hlog _. destruct (log_nil_no_call _ _ _ Hlog). }
  destruct (h _ (GetContainerIsNil g) w) as [[[|] w1]|] eqn:Hnil; cbn [fst].
  - intros Hlog Ho.
    exfalso.
    eapply (@log_single_no_accessor _ container_accessor); [|exact Hlog|exact Ho];
      reflexivity.
  - intros Hlog Ho. exists g, w1.
    assert (exists rest, before
                         = (Returned (GetContainerIsNil g) false :: rest)%list)
      as [rest ->]; [|now exists rest].
    revert Hlog. destruct_calls h; cbn [fst]; intros Hlog;
      (eapply (@log_guarded_by_head _ container_accessor); [|exact Hlog|exact Ho];
       reflexivity).
  - intros Hlog Ho.
    exfalso.
    eapply (@log_single_no_accessor _ container_accessor); [|exact Hlog|exact Ho];
      reflexivity.
Qed.

Lemma task_calls_guarded
      (h : handler TaskMetadataGetter W) (w : W) (change : TaskStateChange)
      (before after : list (observed TaskMetadataGetter))
      (o : observed TaskMetadataGetter) :
  calls h (TaskStateChange_String change) w = (before ++ o :: after)%list ->
  task_accessor o = true ->
  exists (g : taskGetter) (w1 : W) (rest : list (observed TaskMetadataGetter)),
    Task_MetadataGetter change = Some g
    /\ h _ (GetTaskIsNil g) w = Some (false, w1)
    /\ before = (Returned (GetTaskIsNil g) false :: rest)%list.
Proof.
  unfold calls. rewrite exec_TaskStateChange_String.
  destruct (Task_MetadataGetter change) as [g|]; cbn [fst].
  2:{ intros Hlog _. destruct (log_nil_no_call _ _ _ Hlog). }
  destruct (h _ (GetTaskIsNil g) w) as [[[|] w1]|] eqn:Hnil; cbn [fst].
  - intros Hlog Ho.
    exfalso.
    eapply (@log_single_no_accessor _ task_accessor); [|exact Hlog|exact Ho];
      reflexivity.
  - intros Hlog Ho. exists g, w1.
    assert (exists rest, before = (Returned (GetTaskIsNil g) false :: rest)%list)
      as [rest ->]; [|now exists rest].
    revert Hlog. destruct_calls h; cbn [fst]; intros Hlog;
      (eapply (@log_guarded_by_head _ task_accessor); [|exact Hlog|exact Ho];
       reflexivity).
  - intros Hlog Ho.
    exfalso.
    eapply (@log_single_no_accessor _ task_accessor); [|exact Hlog|exact Ho];
      reflexivity.
Qed.

(** The getter contributes its clause exactly when it is valid. *)
Lemma container_metadata_valid
      (h : handler ContainerMetadataGetter W) (w : W)
      (getter : option containerGetter) (m : string) (w' : W) :
  container_metadata h w getter = Some (m, w') ->
  (container_getter_valid h w getter ->
   exists sent runtimeID essential,
     m = container_metadata_clause sent runtimeID essential)
  /\ (~ container_getter_valid h w getter -> m = "").
Proof.
  unfold container_metadata, container_getter_valid.
  destruct getter as [g|].
  2:{ intros [= <- _]. split; [|reflexivity]. now intros (g & w1 & Hg & _). }
  destruct (h _ (GetContainerIsNil g) w) as [[[|] w1]|] eqn:Hnil;
    [| |discriminate].
  - intros [= <- _]. split; [|reflexivity].
    intros (g' & w1' & [= <-] & Hnil'). congruence.
  - destruct_calls h; try discriminate. intros [= <- _]. split.
    + intros _. now eexists _, _, _.
    + intros Hnot. destruct Hnot. now exists g, w1.
Qed.

Lemma task_metadata_valid
      (h : handler TaskMetadataGetter W) (w : W)
      (getter : option taskGetter) (m : string) (w' : W) :
  task_metadata h w getter = Some (m, w') ->
  (task_getter_valid h w getter ->
   exists sent started stopped executionStopped,
     m = task_metadata_clause sent started stopped executionStopped)
  /\ (~ task_getter_valid h w getter -> m = "").
Proof.
  unfold task_metadata, task_getter_valid.
  destruct getter as [g|].
  2:{ intros [= <- _]. split; [|reflexivity]. now intros (g & w1 & Hg & _). }
  destruct (h _ (GetTaskIsNil g) w) as [[[|] w1]|] eqn:Hnil;
    [| |discriminate].
  - intros [= <- _]. split; [|reflexivity].
    intros (g' & w1' & [= <-] & Hnil'). congruence.
  - destruct_calls h; try discriminate. intros [= <- _]. split.
    + intros _. now eexists _, _, _, _.
    + intros Hnot. destruct Hnot. now exists g, w1.
Qed.

Lemma task_metadata_clause_nonempty sent started stopped executionStopped :
  task_metadata_clause sent started stopped executionStopped <> "".
Proof. discriminate. Qed.
End Guard.

Section Validity.
Context {imports : Imports}.
Variable W : Type.

Lemma container_getter_valid_dec
      (h : handler ContainerMetadataGetter W) (w : W)
      (getter : option containerGetter) :
  container_getter_valid h w getter \/ ~ container_getter_valid h w getter.
Proof.
  unfold container_getter_valid. destruct getter as [g|].
  2:{ right. now intros (g & w1 & Hg & _). }
  destruct (h _ (GetContainerIsNil g) w) as [[[|] w1]|] eqn:Hnil.
  - right. intros (g' & w1' & [= <-] & Hnil'). congruence.
  - left. now exists g, w1.
  - right. intros (g' & w1' & [= <-] & Hnil'). congruence.
Qed.

Lemma task_getter_valid_dec
      (h : handler TaskMetadataGetter W) (w : W) (getter : option taskGetter) :
  task_getter_valid h w getter \/ ~ task_getter_valid h w getter.
Proof.
  unfold task_getter_valid. destruct getter as [g|].
  2:{ right. now intros (g & w1 & Hg & _). }
  destruct (h _ (GetTaskIsNil g) w) as [[[|] w1]|] eqn:Hnil.
  - right. intros (g' & w1' & [= <-] & Hnil'). congruence.
  - left. now exists g, w1.
  - right. intros (g' & w1' & [= <-] & Hnil'). congruence.
Qed.

Lemma append_middle_empty (s m t : string) : s ++ m ++ t = s ++ t -> m = "".
Proof.
  intros H. apply append_inv_head in H.
  apply (f_equal String.length) in H. rewrite length_append in H.
  destruct m; [reflexivity | cbn in H; lia].
Qed.

Lemma container_clause_iff_valid
      (h : handler ContainerMetadataGetter W) (w : W) (c : ContainerStateChange)
      (s : string) (w' : W) :
  outcome h (ContainerStateChange_String c) w = Some (s, w') ->
  (container_getter_valid h w (MetadataGetter c) <->
   exists sent runtimeID essential,
     s = container_fields c ++ container_metadata_clause sent runtimeID essential)
  /\ (~ container_getter_valid h w (MetadataGetter c) <-> s = container_fields c).
Proof.
  rewrite outcome_ContainerStateChange_String.
  generalize (container_fields c); intros fields.
  destruct (container_metadata h w (MetadataGetter c)) as [[m w1]|] eqn:Hm;
    cbn [option_map fst snd]; [|discriminate].
  intros [= <- _].
  destruct (container_metadata_valid _ _ _ Hm) as [Hvalid Hnot].
  destruct (container_getter_valid_dec h w (MetadataGetter c)) as [Hv|Hn].
  - destruct (Hvalid Hv) as (sent & rid & ess & ->). split; split.
    + intros _. now exists sent, rid, ess.
    + intros _. exact Hv.
    + intros Hn. now destruct Hn.
    + intros Heq. apply append_eq_self in Heq.
      now destruct (container_metadata_clause_nonempty Heq).
  - rewrite (Hnot Hn), append_nil_r. split; split.
    + intros Hv. now destruct Hn.
    + intros (sent & rid & ess & Heq). symmetry in Heq.
      apply append_eq_self in Heq.
      now destruct (container_metadata_clause_nonempty Heq).
    + reflexivity.
    + intros _. exact Hn.
Qed.

Lemma task_clause_iff_valid
      (h : handler TaskMetadataGetter W) (w : W) (change : TaskStateChange)
      (s : string) (w' : W) :
  outcome h (TaskStateChange_String change) w = Some (s, w') ->
  (task_getter_valid h w (Task_MetadataGetter change) <->
   exists sent started stopped executionStopped,
     s = task_line change
         ++ task_metadata_clause sent started stopped executionStopped
         ++ task_tail change)
  /\ (~ task_getter_valid h w (Task_MetadataGetter change) <->
      s = task_line change ++ task_tail change).
Proof.
  rewrite outcome_TaskStateChange_String.
  destruct (sub_events_set change); [|discriminate].
  generalize (task_line change), (task_tail change); intros line tail.
  destruct (task_metadata h w (Task_MetadataGetter change)) as [[m w1]|] eqn:Hm;
    cbn [option_map fst snd]; [|discriminate].
  intros [= <- _].
  destruct (task_metadata_valid _ _ _ Hm) as [Hvalid Hnot].
  destruct (task_getter_valid_dec h w (Task_MetadataGetter change)) as [Hv|Hn].
  - destruct (Hvalid Hv) as (sent & started & stopped & estopped & ->).
    split; split.
    + intros _. now exists sent, started, stopped, estopped.
    + intros _. exact Hv.
    + intros Hn. now destruct Hn.
    + intros Heq. apply append_middle_empty in Heq.
      now destruct (task_metadata_clause_nonempty Heq).
  - rewrite (Hnot Hn). split; split.
    + intros Hv. now destruct Hn.
    + intros (sent & started & stopped & estopped & Heq). symmetry in Heq.
      apply append_middle_empty in Heq.
      now destruct (task_metadata_clause_nonempty Heq).
    + reflexivity.
    + intros _. exact Hn.
Qed.
End Validity.

(** C2.  Both renderers call an accessor of the metadata getter other
    than the nil-check only when the getter reference is non-nil and its
    nil-check has returned false: in the calls of a run, every such
    accessor comes after a nil-check on the event's getter that returned
    false.  The metadata clause (known sent status, runtime ID and
    is-essential for a container; known sent status and the three
    timestamps for a task) is part of the result exactly when both
    conditions hold. *)
Theorem C2_accessors_guarded_by_nil_check
        {imports : Imports} (W : Type)
        (hc : handler ContainerMetadataGetter W) (ht : handler TaskMetadataGetter W)
        (w : W) (c : ContainerStateChange) (change : TaskStateChange) :
  (forall before o after,
      calls hc (ContainerStateChange_String c) w = (before ++ o :: after)%list ->
      container_accessor o = true ->
      exists g w1 rest,
        MetadataGetter c = Some g
        /\ hc _ (GetContainerIsNil g) w = Some (false, w1)
        /\ before = (Returned (GetContainerIsNil g) false :: rest)%list)
  /\ (forall s w',
         outcome hc (ContainerStateChange_String c) w = Some (s, w') ->
         (container_getter_valid hc w (MetadataGetter c) <->
          exists sent runtimeID essential,
            s = container_fields c
                ++ " containerKnownSentStatus=" ++ sent
                ++ " containerRuntimeID=" ++ runtimeID
                ++ " containerIsEssential=" ++ fmt.v_bool essential)
         /\ (~ container_getter_valid hc w (MetadataGetter c) <->
             s = container_fields c))
  /\ (forall before o after,
         calls ht (TaskStateChange_String change) w = (before ++ o :: after)%list ->
         task_accessor o = true ->
         exists g w1 rest,
           Task_MetadataGetter change = Some g
           /\ ht _ (GetTaskIsNil g) w = Some (false, w1)
           /\ before = (Returned (GetTaskIsNil g) false :: rest)%list)
  /\ (forall s w',
         outcome ht (TaskStateChange_String change) w = Some (s, w') ->
         (task_getter_valid ht w (Task_MetadataGetter change) <->
          exists sent started stopped executionStopped,
            s = task_line change
                ++ (", Known Sent: " ++ sent
                    ++ ", PullStartedAt: " ++ GoString started
                    ++ ", PullStoppedAt: " ++ GoString stopped
                    ++ ", ExecutionStoppedAt: " ++ GoString executionStopped)
                ++ task_tail change)
         /\ (~ task_getter_valid ht w (Task_MetadataGetter change) <->
             s = task_line change ++ task_tail change)).
Proof.
  split; [|split; [|split]].
  - intros before o after. apply container_calls_guarded.
  - intros s w'. apply container_clause_iff_valid.
  - intros before o after. apply task_calls_guarded.
  - intros s w'. apply task_clause_iff_valid.
Qed.

Lemma C2_accessors_guarded_by_nil_check_witness :
  (exists g w1 rest,
      MetadataGetter Sample.web_live = Some g
      /\ Sample.container_engine (GetContainerIsNil g) 0%nat = Some (false, w1)
      /\ [Returned (@GetContainerIsNil Sample.imports 1%nat) false;
          Returned (@GetContainerSentStatusString Sample.imports 1%nat) "PULLED"]
         = (Returned (GetContainerIsNil g) false :: rest)%list)
  /\ (exists g w1 rest,
         Task_MetadataGetter Sample.task_live = Some g
         /\ Sample.task_engine (GetTaskIsNil g) 0%nat = Some (false, w1)
         /\ [Returned (@GetTaskIsNil Sample.imports 1%nat) false]
            = (Returned (GetTaskIsNil g) false :: rest)%list).
Proof.
  pose proof (C2_accessors_guarded_by_nil_check
                Sample.container_engine Sample.task_engine 0%nat
                Sample.web_live Sample.task_live) as (Hc & _ & Ht & _).
  split.
  - exact (Hc [Returned (@GetContainerIsNil Sample.imports 1%nat) false;
               Returned (@GetContainerSentStatusString Sample.imports 1%nat) "PULLED"]
              (Returned (@GetContainerRuntimeID Sample.imports 1%nat) "abc123")
              [Returned (@GetContainerIsEssential Sample.imports 1%nat) true]
              eq_refl eq_refl).
  - exact (Ht [Returned (@GetTaskIsNil Sample.imports 1%nat) false]
              (Returned (@GetTaskSentStatusString Sample.imports 1%nat) "NONE")
              [Returned (@GetTaskPullStartedAt Sample.imports 1%nat) "2021-01-01 00:00:00 +0000 UTC";
               Returned (@GetTaskPullStoppedAt Sample.imports 1%nat) "2021-01-01 00:00:05 +0000 UTC";
               Returned (@GetTaskExecutionStoppedAt Sample.imports 1%nat)
                 "0001-01-01 00:00:00 +0000 UTC"]
              eq_refl eq_refl).
Defined.

(* ===================================================================== *)
(** * Task state changes *)
(* ===================================================================== *)

Lemma concat_nosep_cons (x : string) (l : list string) :
  String.concat "" (x :: l) = x ++ String.concat "" l.
Proof. exact (concat_nosep_app [x] l). Qed.

(** C3.  The task renderer emits its clauses in one fixed order: the line
    [<taskARN> -> <status>], the metadata clause (present exactly when the
    getter is supplied and valid), the attachment clause (present exactly
    when the attachment is set), one [, container change: <...>] clause per
    container sub-event in sequence order, one [, managed agent: <...>]
    clause per managed-agent sub-event in sequence order.  A nil
    attachment and an empty sequence contribute the empty string.  This
    is the result whenever the renderer returns one; it returns none when
    a getter method panics or a sub-event pointer is nil. *)
Theorem C3_task_clause_order
        {imports : Imports} (W : Type) (h : handler TaskMetadataGetter W) (w : W)
        (change : TaskStateChange) :
  outcome h (TaskStateChange_String change) w
  = (if all_set (Containers change) && all_set (ManagedAgents change)
     then option_map
            (fun mw => ((TaskARN change ++ " -> " ++ GoString (Task_Status change))
                        ++ fst mw
                        ++ attachment_clause (Task_Attachment change)
                        ++ container_change_clauses (non_nil (Containers change))
                        ++ managed_agent_clauses (non_nil (ManagedAgents change)),
                        snd mw))
            (task_metadata h w (Task_MetadataGetter change))
     else None)
  /\ (forall m w',
         task_metadata h w (Task_MetadataGetter change) = Some (m, w') ->
         (task_getter_valid h w (Task_MetadataGetter change) ->
          exists sent started stopped executionStopped,
            m = ", Known Sent: " ++ sent
                ++ ", PullStartedAt: " ++ GoString started
                ++ ", PullStoppedAt: " ++ GoString stopped
                ++ ", ExecutionStoppedAt: " ++ GoString executionStopped)
         /\ (~ task_getter_valid h w (Task_MetadataGetter change) -> m = ""))
  /\ (Task_MetadataGetter change = None ->
      task_metadata h w (Task_MetadataGetter change) = Some ("", w))
  /\ attachment_clause None = ""
  /\ (forall a, attachment_clause (Some a) = ", " ++ GoString a)
  /\ container_change_clauses [] = ""
  /\ (forall cc l,
         container_change_clauses (cc :: l)
         = ", container change: " ++ GoString cc ++ container_change_clauses l)
  /\ managed_agent_clauses [] = ""
  /\ (forall m l,
         managed_agent_clauses (m :: l)
         = ", managed agent: " ++ GoString m ++ managed_agent_clauses l)
  /\ (forall (A : Type) (l : list (option A)),
         all_set l = true -> map Some (non_nil l) = l).
Proof.
  repeat apply conj; try reflexivity.
  - apply outcome_TaskStateChange_String.
  - intros m w' Hm. exact (task_metadata_valid _ _ _ Hm).
  - now intros ->.
  - intros cc l. unfold container_change_clauses. cbn [map].
    now rewrite concat_nosep_cons, append_assoc.
  - intros m l. unfold managed_agent_clauses. cbn [map].
    now rewrite concat_nosep_cons, append_assoc.
  - intros A l. induction l as [|[a|] l IH]; cbn; intros H;
      [reflexivity | now rewrite IH | discriminate].
Qed.

Lemma C3_task_clause_order_witness :
  output Sample.task_engine (TaskStateChange_String Sample.task_running) 0%nat
  = Some "arn:1 -> RUNNING, container change: c1"
  /\ outcome Sample.task_engine
       (TaskStateChange_String Sample.task_nil_sub_event) 0%nat = None
  /\ task_metadata Sample.task_engine 0%nat
       (Task_MetadataGetter Sample.task_running) = Some ("", 0%nat)
  /\ exists sent started stopped executionStopped : string,
      ", Known Sent: NONE, PullStartedAt: 2021-01-01 00:00:00 +0000 UTC, PullStoppedAt: 2021-01-01 00:00:05 +0000 UTC, ExecutionStoppedAt: 0001-01-01 00:00:00 +0000 UTC"
      = ", Known Sent: " ++ sent ++ ", PullStartedAt: " ++ started
        ++ ", PullStoppedAt: " ++ stopped
        ++ ", ExecutionStoppedAt: " ++ executionStopped.
Proof.
  split; [|split; [|split]].
  - unfold output.
    rewrite (proj1 (C3_task_clause_order Sample.task_engine 0%nat
                      Sample.task_running)).
    reflexivity.
  - rewrite (proj1 (C3_task_clause_order Sample.task_engine 0%nat
                      Sample.task_nil_sub_event)).
    reflexivity.
  - exact (proj1 (proj2 (proj2 (C3_task_clause_order Sample.task_engine 0%nat
                                  Sample.task_running)))
                 eq_refl).
  - refine (proj1 (proj1 (proj2 (C3_task_clause_order Sample.task_engine 0%nat
                                   Sample.task_live))
                         _ 5%nat eq_refl) _).
    now exists 1%nat, 1%nat.
Defined.

(* ===================================================================== *)
(** * Rendering twice, with the receiver in memory *)
(* ===================================================================== *)

Section Memory.
Variables (T W R : Type) (G : Type -> Type).
Variable h : handler G (T * W).

(** A computation without assignment leaves the struct behind the
    receiver as it found it, if the getter does. *)
Lemma no_store_frame (p : prog (sumE (receiverE T) G) R) :
  event_untouched h ->
  no_store p ->
  forall (c : T) (w : W) (r : R) (c' : T) (w' : W),
    outcome (method_handler h) p (c, w) = Some (r, (c', w')) -> c' = c.
Proof.
  intros Hh. unfold outcome.
  induction p as [r0| |X e k IH]; intros Hp c w r c' w'; cbn [exec snd].
  - now intros [= _ <- _].
  - discriminate.
  - destruct Hp as [He Hk]. destruct e as [m|g].
    + destruct m; [|discriminate He]. cbn [method_handler fst].
      specialize (IH c (Hk c) c w r c' w').
      destruct (exec (method_handler h) (k c) (c, w)) as [log out].
      exact IH.
    + cbn [method_handler].
      destruct (h g (c, w)) as [[x [c1 w1]]|] eqn:Hg; [|discriminate].
      rewrite (Hh _ _ _ _ _ _ _ Hg) in *.
      specialize (IH x (Hk x) c w1 r c' w').
      destruct (exec (method_handler h) (k x) (c, w1)) as [log out].
      exact IH.
Qed.

(** A computation without assignment never logs one. *)
Lemma no_store_calls (p : prog (sumE (receiverE T) G) R) :
  no_store p ->
  forall st : T * W,
    Forall (fun o => stores o = false) (calls (method_handler h) p st).
Proof.
  unfold calls.
  induction p as [r0| |X e k IH]; intros Hp st; cbn [exec fst];
    [constructor | constructor |].
  destruct Hp as [He Hk].
  destruct (method_handler h e st) as [[x st']|]; cbn [fst].
  - specialize (IH x (Hk x) st').
    destruct (exec (method_handler h) (k x) st') as [log out].
    constructor; [exact He | exact IH].
  - constructor; [exact He | constructor].
Qed.

(** Two runs that start from the same struct and in which the getter's
    methods answer by the same table return the same value and leave the
    same struct. *)
Lemma conforming_runs
      (answer : forall X : Type, G X -> option X)
      (p : prog (sumE (receiverE T) G) R) :
  event_untouched h ->
  forall (c : T) (w1 w2 : W),
    Forall (conforms answer) (calls (method_handler h) p (c, w1)) ->
    Forall (conforms answer) (calls (method_handler h) p (c, w2)) ->
    option_map (fun rs => (fst rs, fst (snd rs)))
      (outcome (method_handler h) p (c, w1))
    = option_map (fun rs => (fst rs, fst (snd rs)))
        (outcome (method_handler h) p (c, w2)).
Proof.
  intros Hh. unfold calls, outcome.
  induction p as [r0| |X e k IH]; intros c w1 w2; cbn [exec fst snd];
    [reflexivity | reflexivity |].
  destruct e as [m|g].
  - destruct m; cbn [method_handler fst snd].
    + specialize (IH c c w1 w2).
      destruct (exec (method_handler h) (k c) (c, w1)) as [log1 out1],
               (exec (method_handler h) (k c) (c, w2)) as [log2 out2].
      cbn [fst snd] in *. intros H1 H2.
      exact (IH (Forall_inv_tail H1) (Forall_inv_tail H2)).
    + specialize (IH tt v w1 w2).
      destruct (exec (method_handler h) (k tt) (v, w1)) as [log1 out1],
               (exec (method_handler h) (k tt) (v, w2)) as [log2 out2].
      cbn [fst snd] in *. intros H1 H2.
      exact (IH (Forall_inv_tail H1) (Forall_inv_tail H2)).
  - cbn [method_handler].
    destruct (h g (c, w1)) as [[x1 [c1 w1']]|] eqn:Hg1,
             (h g (c, w2)) as [[x2 [c2 w2']]|] eqn:Hg2; cbn [fst snd].
    + rewrite (Hh _ _ _ _ _ _ _ Hg1), (Hh _ _ _ _ _ _ _ Hg2).
      destruct (exec (method_handler h) (k x1) (c, w1')) as [log1 out1] eqn:E1.
      destruct (exec (method_handler h) (k x2) (c, w2')) as [log2 out2] eqn:E2.
      cbn [fst snd]. intros H1 H2.
      pose proof (Forall_inv H1) as A1. pose proof (Forall_inv H2) as A2.
      cbn [conforms] in A1, A2.
      assert (x2 = x1) as -> by congruence.
      specialize (IH x1 c w1' w2'). rewrite E1, E2 in IH.
      exact (IH (Forall_inv_tail H1) (Forall_inv_tail H2)).
    + intros H1 H2.
      pose proof (Forall_inv H2) as A2. cbn [conforms] in A2.
      exfalso. revert H1.
      destruct (exec (method_handler h) (k x1) (c1, w1')) as [log1 out1].
      intros H1. pose proof (Forall_inv H1) as A1. cbn [conforms] in A1.
      congruence.
    + intros H1 H2.
      pose proof (Forall_inv H1) as A1. cbn [conforms] in A1.
      exfalso. revert H2.
      destruct (exec (method_handler h) (k x2) (c2, w2')) as [log2 out2].
      intros H2. pose proof (Forall_inv H2) as A2. cbn [conforms] in A2.
      congruence.
    + reflexivity.
Qed.

(** Calling twice: a computation without assignment, run a second time
    from the struct its first run left and whatever the task engine has
    become, returns what the first run returned when the getter's methods
    answer both runs by the same table. *)
Lemma no_store_twice
      (answer : forall X : Type, G X -> option X)
      (p : prog (sumE (receiverE T) G) R) :
  event_untouched h ->
  no_store p ->
  forall (c : T) (w : W) (r : R) (c1 : T) (w1 w2 : W),
    outcome (method_handler h) p (c, w) = Some (r, (c1, w1)) ->
    Forall (conforms answer) (calls (method_handler h) p (c, w)) ->
    Forall (conforms answer) (calls (method_handler h) p (c1, w2)) ->
    c1 = c
    /\ Forall (fun o => stores o = false) (calls (method_handler h) p (c, w))
    /\ output (method_handler h) p (c1, w2) = Some r.
Proof.
  intros Hh Hp c w r c1 w1 w2 Hout H1 H2.
  assert (c1 = c) as -> by (eapply no_store_frame; eassumption).
  split; [reflexivity|]. split; [now apply no_store_calls|].
  pose proof (@conforming_runs answer p Hh c w w2 H1 H2) as Heq.
  unfold output. rewrite Hout in Heq.
  destruct (outcome (method_handler h) p (c, w2)) as [[r2 [c2 w2']]|];
    cbn [option_map fst snd] in Heq |- *; [|discriminate].
  now injection Heq as <- _.
Qed.

Lemma aloof_untouched (h0 : handler G W) : event_untouched (aloof (T := T) h0).
Proof.
  intros X e c w x c' w'. unfold aloof; cbn [fst snd].
  destruct (h0 X e w) as [[x0 w0]|]; [|discriminate]. now intros [= _ <- _].
Qed.
End Memory.

Ltac no_store_step :=
  first [ exact I
        | split; [reflexivity|]
        | intro
        | rewrite for_range_pointer_String
        | match goal with
          | |- context [match ?x with _ => _ end] => destruct x
          end
        | progress cbn [bind no_store is_store field on_interface deref] ].

Section NoStore.
Context {imports : Imports}.

(** None of the three renderers assigns to its receiver. *)
Lemma ContainerStateChange_String_no_store :
  no_store ContainerStateChange_String_ptr.
Proof. unfold ContainerStateChange_String_ptr. repeat no_store_step. Qed.

Lemma TaskStateChange_String_no_store : no_store TaskStateChange_String_ptr.
Proof. unfold TaskStateChange_String_ptr. repeat no_store_step. Qed.

Lemma AttachmentStateChange_String_no_store :
  no_store AttachmentStateChange_String_ptr.
Proof. unfold AttachmentStateChange_String_ptr. repeat no_store_step. Qed.
End NoStore.

Lemma outcome_Call {E : Type -> Type} {W R X : Type}
      (h : handler E W) (e : E X) (k : X -> prog E R) (w : W) :
  outcome h (Call e k) w
  = match h X e w with
    | Some (x, w') => outcome h (k x) w'
    | None => None
    end.
Proof.
  unfold outcome; cbn [exec]. destruct (h X e w) as [[x w']|]; [|reflexivity].
  now destruct (exec h (k x) w').
Qed.

Ltac refine_step h Hh :=
  first
    [ rewrite outcome_Call
    | rewrite for_range_pointer_String
    | progress cbn -[fmt.Sprintf append strconv.Itoa fmt.v_slice all_set non_nil
                     String.concat]
    | match goal with
      | |- context [h ?X ?e (?c, ?w)] =>
          let H := fresh "Hcall" in
          destruct (h X e (c, w)) as [[? [? ?]]|] eqn:H;
          [pose proof (Hh _ _ _ _ _ _ _ H); subst|]
      | |- context [if all_set ?l then _ else _] => destruct (all_set l)
      | |- context [negb ?b] => is_var b; destruct b
      end ].

Section Refinement.
Context {imports : Imports}.
Variable W : Type.

(** With the getter leaving the struct alone, the renderer run on the
    receiver in memory returns what the renderer of the struct value
    returns, and leaves the struct. *)
Lemma ContainerStateChange_String_ptr_value
      (h : handler ContainerMetadataGetter (ContainerStateChange * W))
      (c : ContainerStateChange) (w : W) :
  event_untouched h ->
  outcome (method_handler h) ContainerStateChange_String_ptr (c, w)
  = option_map (fun sw => (fst sw, (c, snd sw)))
      (outcome (value_view h c) (ContainerStateChange_String c) w).
Proof.
  intros Hh.
  unfold ContainerStateChange_String_ptr, ContainerStateChange_String,
    field, on_interface, deref, call, value_view.
  destruct c as [arn rid name st dig [|a reason] [code|] [|b nb] [g|]];
    repeat refine_step h Hh; reflexivity.
Qed.

Lemma TaskStateChange_String_ptr_value
      (h : handler TaskMetadataGetter (TaskStateChange * W))
      (change : TaskStateChange) (w : W) :
  event_untouched h ->
  outcome (method_handler h) TaskStateChange_String_ptr (change, w)
  = option_map (fun sw => (fst sw, (change, snd sw)))
      (outcome (value_view h change) (TaskStateChange_String change) w).
Proof.
  intros Hh.
  unfold TaskStateChange_String_ptr, TaskStateChange_String,
    field, on_interface, deref, call, value_view.
  destruct change as [[att|] arn st reason cs ms ps pst est [g|]];
    repeat refine_step h Hh; reflexivity.
Qed.

Lemma AttachmentStateChange_String_ptr_value
      (h : handler noE (AttachmentStateChange * W))
      (change : AttachmentStateChange) (w : W) :
  outcome (method_handler h) AttachmentStateChange_String_ptr (change, w)
  = Some (AttachmentStateChange_String change, (change, w)).
Proof.
  unfold AttachmentStateChange_String_ptr, AttachmentStateChange_String,
    field, deref.
  destruct change as [[a|]];
    repeat first [rewrite outcome_Call
                 | progress cbn -[fmt.Sprintf append]]; reflexivity.
Qed.
End Refinement.

(** C7.  Calling a renderer twice on the same unmutated event yields the
    same output, and the call mutates no field of the event.  The receiver
    is a struct in memory that the renderer reads field by field; the
    getter's methods leave it as it is.  Whenever a call returns, it has
    made no assignment to the struct, which is afterwards what it was
    before; and a second call, made on that struct whatever the task
    engine has become in between, returns the same string, provided the
    getter's accessors return in the second call what they returned in the
    first. *)
Theorem C7_rendering_idempotent
        {imports : Imports} (W : Type)
        (hc : handler ContainerMetadataGetter (ContainerStateChange * W))
        (ht : handler TaskMetadataGetter (TaskStateChange * W))
        (ha : handler noE (AttachmentStateChange * W))
        (answerc : forall X : Type, ContainerMetadataGetter X -> option X)
        (answert : forall X : Type, TaskMetadataGetter X -> option X) :
  event_untouched hc ->
  event_untouched ht ->
  (forall (c c1 : ContainerStateChange) (w w1 w2 : W) (s : string),
      outcome (method_handler hc) ContainerStateChange_String_ptr (c, w)
      = Some (s, (c1, w1)) ->
      Forall (conforms answerc)
        (calls (method_handler hc) ContainerStateChange_String_ptr (c, w)) ->
      Forall (conforms answerc)
        (calls (method_handler hc) ContainerStateChange_String_ptr (c1, w2)) ->
      c1 = c
      /\ Forall (fun o => stores o = false)
           (calls (method_handler hc) ContainerStateChange_String_ptr (c, w))
      /\ output (method_handler hc) ContainerStateChange_String_ptr (c1, w2)
         = Some s)
  /\ (forall (change change1 : TaskStateChange) (w w1 w2 : W) (s : string),
         outcome (method_handler ht) TaskStateChange_String_ptr (change, w)
         = Some (s, (change1, w1)) ->
         Forall (conforms answert)
           (calls (method_handler ht) TaskStateChange_String_ptr (change, w)) ->
         Forall (conforms answert)
           (calls (method_handler ht) TaskStateChange_String_ptr (change1, w2)) ->
         change1 = change
         /\ Forall (fun o => stores o = false)
              (calls (method_handler ht) TaskStateChange_String_ptr (change, w))
         /\ output (method_handler ht) TaskStateChange_String_ptr (change1, w2)
            = Some s)
  /\ (forall (a a1 : AttachmentStateChange) (w w1 w2 : W) (s : string),
         outcome (method_handler ha) AttachmentStateChange_String_ptr (a, w)
         = Some (s, (a1, w1)) ->
         a1 = a
         /\ Forall (fun o => stores o = false)
              (calls (method_handler ha) AttachmentStateChange_String_ptr (a, w))
         /\ output (method_handler ha) AttachmentStateChange_String_ptr (a1, w2)
            = Some s).
Proof.
  intros Hc Ht. split; [|split].
  - intros c c1 w w1 w2 s.
    exact (@no_store_twice _ _ _ _ hc answerc _ Hc
             ContainerStateChange_String_no_store c w s c1 w1 w2).
  - intros change change1 w w1 w2 s.
    exact (@no_store_twice _ _ _ _ ht answert _ Ht
             TaskStateChange_String_no_store change w s change1 w1 w2).
  - intros a a1 w w1 w2 s Hout.
    assert (Ha : event_untouched ha) by (intros X e; destruct e).
    assert (Hall : forall l : list (observed (sumE (receiverE AttachmentStateChange)
                                                 noE)),
               Forall (conforms (fun X (e : noE X) => @None X)) l).
    { intros l. apply Forall_forall. intros [X [m|e] x|X [m|e]] _;
        solve [exact I | destruct e]. }
    exact (@no_store_twice _ _ _ _ ha _ _ Ha
             AttachmentStateChange_String_no_store a w s a1 w1 w2
             Hout (Hall _) (Hall _)).
Qed.

Lemma C7_rendering_idempotent_witness :
  output (method_handler (aloof Sample.container_engine))
    ContainerStateChange_String_ptr (Sample.web_live, 9%nat)
  = Some "containerName=web containerStatus=STOPPED containerExitCode=-1 containerReason=OOMKilled containerNetworkBindings=[80->8080] containerKnownSentStatus=PULLED containerRuntimeID=abc123 containerIsEssential=true"
  /\ output (method_handler (aloof Sample.task_engine))
       TaskStateChange_String_ptr (Sample.task_running, 9%nat)
     = Some "arn:1 -> RUNNING, container change: c1".
Proof.
  pose proof (@C7_rendering_idempotent Sample.imports nat
                (aloof Sample.container_engine) (aloof Sample.task_engine)
                (aloof (fun (X : Type) (e : noE X) (w : nat) => @None (X * nat)))
                Sample.container_answer Sample.task_answer
                (@aloof_untouched _ _ _ _) (@aloof_untouched _ _ _ _))
    as (Hcontainer & Htask & _).
  split.
  - refine (proj2 (proj2 (Hcontainer Sample.web_live Sample.web_live
                            0%nat 4%nat 9%nat _ eq_refl _ _)));
      cbv; repeat constructor.
  - refine (proj2 (proj2 (Htask Sample.task_running Sample.task_running
                            0%nat 0%nat 9%nat _ eq_refl _ _)));
      cbv; repeat constructor.
Defined.

(* ===================================================================== *)
(** * Further properties of the renderers *)
(* ===================================================================== *)

Ltac destruct_calls_eqn h :=
  repeat match goal with
         | |- context [match h ?X ?e ?w with _ => _ end] =>
             destruct (h X e w) as [[? ?]|] eqn:?
         end.

(** The container renderer calls the getter in one fixed pattern: nothing
    without a getter; with one, the nil-check first and always, and then
    at most once each, in this order, the sent status, the runtime ID and
    the is-essential flag, all on the event's own getter.  Against a
    getter that never panics the renderer returns, after no call, one
    call or four. *)
Theorem container_call_discipline
        {imports : Imports} (W : Type)
        (h : handler ContainerMetadataGetter W) (w : W) (c : ContainerStateChange) :
  (MetadataGetter c = None -> calls h (ContainerStateChange_String c) w = [])
  /\ (forall g : containerGetter,
         MetadataGetter c = Some g ->
         calls h (ContainerStateChange_String c) w <> []
         /\ exists rest,
             [existT _ _ (GetContainerIsNil g);
              existT _ _ (GetContainerSentStatusString g);
              existT _ _ (GetContainerRuntimeID g);
              existT _ _ (GetContainerIsEssential g)]
             = (map call_of (calls h (ContainerStateChange_String c) w) ++ rest)%list)
  /\ (never_panics h ->
      exists s w',
        outcome h (ContainerStateChange_String c) w = Some (s, w')
        /\ (length (calls h (ContainerStateChange_String c) w) = 0
            \/ length (calls h (ContainerStateChange_String c) w) = 1
            \/ length (calls h (ContainerStateChange_String c) w) = 4)%nat).
Proof.
  unfold calls, outcome. rewrite exec_ContainerStateChange_String.
  split; [|split].
  - now intros ->.
  - intros g ->.
    destruct (h _ (GetContainerIsNil g) w) as [[[|] w1]|]; destruct_calls h;
      cbn [fst map call_of app]; (split; [discriminate | eexists; reflexivity]).
  - intros Hh. destruct (MetadataGetter c) as [g|]; [|cbn; eauto].
    destruct (h _ (GetContainerIsNil g) w) as [[[|] w1]|] eqn:Hnil; destruct_calls_eqn h;
      try match goal with
          | H : h ?X ?e ?w0 = None |- _ => now destruct (Hh X e w0)
          end;
      cbn; eauto 6.
Qed.

Lemma container_call_discipline_witness :
  exists s w',
    outcome Sample.container_stub (ContainerStateChange_String Sample.web_void) 0%nat
    = Some (s, w')
    /\ (length (calls Sample.container_stub
                  (ContainerStateChange_String Sample.web_void) 0%nat) = 0
        \/ length (calls Sample.container_stub
                     (ContainerStateChange_String Sample.web_void) 0%nat) = 1
        \/ length (calls Sample.container_stub
                     (ContainerStateChange_String Sample.web_void) 0%nat) = 4)%nat.
Proof.
  refine (proj2 (proj2 (container_call_discipline Sample.container_stub 0%nat
                          Sample.web_void)) _).
  intros X e w; destruct e; discriminate.
Defined.

(** The task renderer calls the getter in one fixed pattern: nothing
    without a getter; with one, the nil-check first and always, and then
    at most once each, in this order, the sent status and the three
    timestamps, all on the event's own getter.  Against a getter that
    never panics the renderer makes no call, one call or five; it then
    returns if no sub-event pointer is nil, and panics otherwise. *)
Theorem task_call_discipline
        {imports : Imports} (W : Type)
        (h : handler TaskMetadataGetter W) (w : W) (change : TaskStateChange) :
  (Task_MetadataGetter change = None ->
   calls h (TaskStateChange_String change) w = [])
  /\ (forall g : taskGetter,
         Task_MetadataGetter change = Some g ->
         calls h (TaskStateChange_String change) w <> []
         /\ exists rest,
             [existT _ _ (GetTaskIsNil g);
              existT _ _ (GetTaskSentStatusString g);
              existT _ _ (GetTaskPullStartedAt g);
              existT _ _ (GetTaskPullStoppedAt g);
              existT _ _ (GetTaskExecutionStoppedAt g)]
             = (map call_of (calls h (TaskStateChange_String change) w) ++ rest)%list)
  /\ (never_panics h ->
      (length (calls h (TaskStateChange_String change) w) = 0
       \/ length (calls h (TaskStateChange_String change) w) = 1
       \/ length (calls h (TaskStateChange_String change) w) = 5)%nat
      /\ (all_set (Containers change) && all_set (ManagedAgents change) = true ->
          exists s w', outcome h (TaskStateChange_String change) w = Some (s, w'))
      /\ (all_set (Containers change) && all_set (ManagedAgents change) = false ->
          outcome h (TaskStateChange_String change) w = None)).
Proof.
  fold (sub_events_set change).
  unfold calls, outcome. rewrite exec_TaskStateChange_String. unfold task_finish.
  split; [|split].
  - now intros ->.
  - intros g ->.
    destruct (h _ (GetTaskIsNil g) w) as [[[|] w1]|]; destruct_calls h;
      cbn [fst map call_of app]; (split; [discriminate | eexists; reflexivity]).
  - intros Hh. destruct (Task_MetadataGetter change) as [g|].
    2:{ cbn [fst snd length]. repeat split; [now left | |]; intros ->;
          [now eexists _, _ | reflexivity]. }
    destruct (h _ (GetTaskIsNil g) w) as [[[|] w1]|] eqn:Hnil; destruct_calls_eqn h;
      try match goal with
          | H : h ?X ?e ?w0 = None |- _ => now destruct (Hh X e w0)
          end;
      cbn [fst snd length]; (repeat split; [auto | |]); intros ->;
      solve [now eexists _, _ | reflexivity].
Qed.

Lemma task_call_discipline_witness :
  exists s w',
    outcome Sample.task_stub (TaskStateChange_String Sample.task_live) 0%nat
    = Some (s, w').
Proof.
  refine (proj1 (proj2 (proj2 (proj2 (task_call_discipline Sample.task_stub 0%nat
                                        Sample.task_live)) _)) eq_refl).
  intros X e w; destruct e; discriminate.
Defined.

Lemma append_inv_tail (s s' t : string) : s ++ t = s' ++ t -> s = s'.
Proof.
  revert s'; induction s as [|ch s IH]; intros [|ch' s'] H; cbn in H.
  - reflexivity.
  - apply (f_equal String.length) in H. cbn in H. rewrite length_append in H. lia.
  - apply (f_equal String.length) in H. cbn in H. rewrite length_append in H. lia.
  - injection H as -> H. now rewrite (IH s' H).
Qed.

Lemma Itoa_inj (n m : Z) : strconv.Itoa n = strconv.Itoa m -> n = m.
Proof.
  assert (Hnorm : forall z, Z.to_int z <> Decimal.Pos Decimal.Nil
                            /\ Z.to_int z <> Decimal.Neg Decimal.Nil).
  { intros [|p|p]; cbn; split; try discriminate;
      intros [= H]; exact (DecimalPos.Unsigned.to_uint_nonnil _ H). }
  unfold strconv.Itoa. intros H.
  apply (f_equal NilZero.int_of_string) in H.
  rewrite !NilZero.isi in H by apply Hnorm.
  injection H as H. now apply DecimalZ.to_int_inj.
Qed.

Lemma exit_code_clause_inj (code1 code2 : option Z) :
  exit_code_clause code1 = exit_code_clause code2 -> code1 = code2.
Proof.
  destruct code1 as [n|], code2 as [m|]; unfold exit_code_clause; intros H;
    try discriminate; [|reflexivity].
  apply append_inv_head in H. now rewrite (Itoa_inj _ _ H).
Qed.

Lemma reason_clause_inj (reason1 reason2 : string) :
  reason_clause reason1 = reason_clause reason2 -> reason1 = reason2.
Proof.
  destruct reason1 as [|a r1], reason2 as [|b r2]; unfold reason_clause; intros H;
    try discriminate; [reflexivity|].
  exact (append_inv_head _ _ _ H).
Qed.

(** Given the other fields, the getter and the world, the rendering
    tells the container name, the exit code and the reason: two events
    that differ in one of these fields alone never render the same. *)
Theorem container_rendering_determines_field
        {imports : Imports} (W : Type) (h : handler ContainerMetadataGetter W) (w : W)
        (taskArn runtimeID digest : string) (status : ContainerStatus)
        (bindings : list ecs_NetworkBinding) (getter : option containerGetter) :
  let event name reason exitCode :=
    {| TaskArn := taskArn; RuntimeID := runtimeID; ContainerName := name;
       Status := status; ImageDigest := digest; Reason := reason;
       ExitCode := exitCode; NetworkBindings := bindings;
       MetadataGetter := getter |} in
  (forall name1 name2 reason exitCode s w1 w2,
      outcome h (ContainerStateChange_String (event name1 reason exitCode)) w
      = Some (s, w1) ->
      outcome h (ContainerStateChange_String (event name2 reason exitCode)) w
      = Some (s, w2) ->
      name1 = name2)
  /\ (forall name reason exitCode1 exitCode2 s w1 w2,
         outcome h (ContainerStateChange_String (event name reason exitCode1)) w
         = Some (s, w1) ->
         outcome h (ContainerStateChange_String (event name reason exitCode2)) w
         = Some (s, w2) ->
         exitCode1 = exitCode2)
  /\ (forall name reason1 reason2 exitCode s w1 w2,
         outcome h (ContainerStateChange_String (event name reason1 exitCode)) w
         = Some (s, w1) ->
         outcome h (ContainerStateChange_String (event name reason2 exitCode)) w
         = Some (s, w2) ->
         reason1 = reason2).
Proof.
  intros event.
  assert (Hsame : forall c1 c2 s w1 w2,
             MetadataGetter c1 = getter -> MetadataGetter c2 = getter ->
             outcome h (ContainerStateChange_String c1) w = Some (s, w1) ->
             outcome h (ContainerStateChange_String c2) w = Some (s, w2) ->
             container_fields c1 = container_fields c2).
  { intros c1 c2 s w1 w2 Hg1 Hg2.
    rewrite !outcome_ContainerStateChange_String, Hg1, Hg2.
    generalize (container_fields c1), (container_fields c2); intros f1 f2.
    destruct (container_metadata h w getter) as [[m wm]|];
      cbn [option_map fst snd]; [|discriminate].
    intros H1 H2. apply (append_inv_tail f1 f2 m). congruence. }
  split; [|split].
  - intros name1 name2 reason exitCode s w1 w2 H1 H2.
    pose proof (Hsame (event name1 reason exitCode) (event name2 reason exitCode)
                  s w1 w2 eq_refl eq_refl H1 H2) as H.
    unfold container_fields, container_header, event in H.
    cbn [ContainerName Status ExitCode Reason NetworkBindings] in H.
    rewrite !append_assoc in H. apply append_inv_head in H.
    exact (append_inv_tail _ _ _ H).
  - intros name reason exitCode1 exitCode2 s w1 w2 H1 H2.
    pose proof (Hsame (event name reason exitCode1) (event name reason exitCode2)
                  s w1 w2 eq_refl eq_refl H1 H2) as H.
    unfold container_fields, event in H.
    cbn [ContainerName Status ExitCode Reason NetworkBindings] in H.
    apply append_inv_head in H. apply append_inv_tail in H.
    exact (exit_code_clause_inj _ _ H).
  - intros name reason1 reason2 exitCode s w1 w2 H1 H2.
    pose proof (Hsame (event name reason1 exitCode) (event name reason2 exitCode)
                  s w1 w2 eq_refl eq_refl H1 H2) as H.
    unfold container_fields, event in H.
    cbn [ContainerName Status ExitCode Reason NetworkBindings] in H.
    do 2 apply append_inv_head in H. apply append_inv_tail in H.
    exact (reason_clause_inj _ _ H).
Qed.

Lemma container_rendering_determines_field_witness :
  ExitCode Sample.web_stopped = Some 1.
Proof.
  refine (proj1 (proj2 (container_rendering_determines_field
                          Sample.container_engine 0%nat
                          "arn:aws:ecs:task/1" "abc123" "" Sample.ContainerStopped
                          [] None))
                "web" "OOMKilled" (ExitCode Sample.web_stopped) (Some 1)
                "containerName=web containerStatus=STOPPED containerExitCode=1 containerReason=OOMKilled"
                0%nat 0%nat _ _); reflexivity.
Defined.

(** The rendering does not separate the reason from the bindings clause:
    an event with a non-empty reason and bindings renders exactly as the
    event without bindings whose reason is the first reason followed by
    the text of the bindings clause. *)
Theorem reason_absorbs_bindings_clause
        {imports : Imports} (W : Type) (h : handler ContainerMetadataGetter W) (w : W)
        (taskArn runtimeID name digest reason : string) (status : ContainerStatus)
        (exitCode : option Z) (bindings : list ecs_NetworkBinding)
        (getter : option containerGetter) :
  reason <> "" ->
  bindings <> [] ->
  exec h (ContainerStateChange_String
            {| TaskArn := taskArn; RuntimeID := runtimeID; ContainerName := name;
               Status := status; ImageDigest := digest; Reason := reason;
               ExitCode := exitCode; NetworkBindings := bindings;
               MetadataGetter := getter |}) w
  = exec h (ContainerStateChange_String
              {| TaskArn := taskArn; RuntimeID := runtimeID; ContainerName := name;
                 Status := status; ImageDigest := digest;
                 Reason := reason ++ " containerNetworkBindings="
                           ++ fmt.v_slice bindings;
                 ExitCode := exitCode; NetworkBindings := [];
                 MetadataGetter := getter |}) w.
Proof.
  intros Hreason Hbindings. rewrite !exec_ContainerStateChange_String.
  cbn [MetadataGetter].
  match goal with
  | |- context [container_fields ?c1] =>
      match goal with
      | |- context [container_fields ?c2] =>
          tryif constr_eq c1 c2 then fail else
            assert (container_fields c1 = container_fields c2) as ->
      end
  end; [|reflexivity].
  unfold container_fields, reason_clause, bindings_clause.
  cbn [ContainerName Status ExitCode Reason NetworkBindings].
  destruct reason as [|a reason]; [now destruct Hreason|].
  destruct bindings as [|b bindings]; [now destruct Hbindings|].
  cbn [append]. do 2 f_equal. string_norm. reflexivity.
Qed.

Lemma reason_absorbs_bindings_clause_witness :
  output Sample.container_engine
    (ContainerStateChange_String Sample.web_live) 0%nat
  = output Sample.container_engine
      (ContainerStateChange_String
         {| TaskArn := TaskArn Sample.web_live; RuntimeID := RuntimeID Sample.web_live;
            ContainerName := "web"; Status := Status Sample.web_live;
            ImageDigest := ""; 
            Reason := "OOMKilled containerNetworkBindings=[80->8080]";
            ExitCode := Some (-1); NetworkBindings := [];
            MetadataGetter := Some 1%nat |}) 0%nat.
Proof.
  unfold output, outcome.
  refine (f_equal (fun r => option_map fst (snd r))
            (@reason_absorbs_bindings_clause Sample.imports nat
               Sample.container_engine 0%nat
               "arn:aws:ecs:task/1" "abc123" "web" "" "OOMKilled"
               Sample.ContainerStopped (Some (-1)) ["80->8080"] (Some 1%nat) _ _));
    discriminate.
Defined.

(** The fields of a task state change the renderer skips: two events
    that agree on attachment, ARN, status, sub-events and getter are
    rendered by the same computation, whatever their Reason and their own
    PullStartedAt, PullStoppedAt and ExecutionStoppedAt hold; the
    timestamps printed are the getter's. *)
Theorem task_unrendered_fields
        {imports : Imports} (t1 t2 : TaskStateChange) :
  Task_Attachment t1 = Task_Attachment t2 ->
  TaskARN t1 = TaskARN t2 ->
  Task_Status t1 = Task_Status t2 ->
  Containers t1 = Containers t2 ->
  ManagedAgents t1 = ManagedAgents t2 ->
  Task_MetadataGetter t1 = Task_MetadataGetter t2 ->
  TaskStateChange_String t1 = TaskStateChange_String t2
  /\ forall (W : Type) (h : handler TaskMetadataGetter W) (w : W),
      exec h (TaskStateChange_String t1) w = exec h (TaskStateChange_String t2) w.
Proof.
  intros Hatt Harn Hstatus Hcs Hms Hg.
  assert (TaskStateChange_String t1 = TaskStateChange_String t2) as Heq.
  { unfold TaskStateChange_String. now rewrite Hatt, Harn, Hstatus, Hcs, Hms, Hg. }
  split; [exact Heq|]. intros W h w. now rewrite Heq.
Qed.

Lemma task_unrendered_fields_witness :
  exec Sample.task_engine (TaskStateChange_String Sample.task_live_elsewhere) 0%nat
  = exec Sample.task_engine (TaskStateChange_String Sample.task_live) 0%nat.
Proof.
  exact (proj2 (task_unrendered_fields Sample.task_live_elsewhere Sample.task_live
                  eq_refl eq_refl eq_refl eq_refl eq_refl eq_refl)
               nat Sample.task_engine 0%nat).
Defined.

Section SubEvents.
Context {imports : Imports}.

Lemma container_change_clauses_app (l1 l2 : list ecs_ContainerStateChange) :
  container_change_clauses (l1 ++ l2)
  = container_change_clauses l1 ++ container_change_clauses l2.
Proof. unfold container_change_clauses. now rewrite map_app, concat_nosep_app. Qed.

Lemma managed_agent_clauses_app (l1 l2 : list ecs_ManagedAgentStateChange) :
  managed_agent_clauses (l1 ++ l2)
  = managed_agent_clauses l1 ++ managed_agent_clauses l2.
Proof. unfold managed_agent_clauses. now rewrite map_app, concat_nosep_app. Qed.
End SubEvents.

Lemma all_set_app {A : Type} (l1 l2 : list (option A)) :
  all_set (l1 ++ l2) = all_set l1 && all_set l2.
Proof. apply forallb_app. Qed.

Lemma all_set_map_Some {A : Type} (l : list A) : all_set (map Some l) = true.
Proof. induction l as [|a l IH]; [reflexivity | exact IH]. Qed.

Lemma non_nil_app {A : Type} (l1 l2 : list (option A)) :
  non_nil (l1 ++ l2) = (non_nil l1 ++ non_nil l2)%list.
Proof.
  induction l1 as [|[a|] l1 IH]; cbn [non_nil app]; [reflexivity | | exact IH].
  now rewrite IH.
Qed.

Lemma non_nil_map_Some {A : Type} (l : list A) : non_nil (map Some l) = l.
Proof. induction l as [|a l IH]; cbn [non_nil map]; [reflexivity | now rewrite IH]. Qed.

(** Sub-events compose: appending non-nil managed-agent sub-events to a
    task appends their clauses, in order, to its rendering; appending
    non-nil container sub-events does the same for a task without managed
    agents, and otherwise puts their clauses before the first
    managed-agent clause.  Appending a sequence with a nil pointer makes
    the renderer panic. *)
Theorem task_rendering_appends_sub_events
        {imports : Imports} (W : Type) (h : handler TaskMetadataGetter W) (w : W)
        (attachment : option ni_ENIAttachment) (taskARN reason : string)
        (status : TaskStatus)
        (pullStarted pullStopped executionStopped : option time_Time)
        (getter : option taskGetter) :
  let event containers agents :=
    {| Task_Attachment := attachment; TaskARN := taskARN; Task_Status := status;
       Task_Reason := reason; Containers := containers; ManagedAgents := agents;
       PullStartedAt := pullStarted; PullStoppedAt := pullStopped;
       ExecutionStoppedAt := executionStopped; Task_MetadataGetter := getter |} in
  (forall containers agents (more : list ecs_ManagedAgentStateChange),
      outcome h (TaskStateChange_String
                   (event containers (agents ++ map Some more)%list)) w
      = option_map
          (fun sw => (fst sw
                      ++ String.concat ""
                           (map (fun m => ", managed agent: " ++ GoString m) more),
                      snd sw))
          (outcome h (TaskStateChange_String (event containers agents)) w))
  /\ (forall containers (more : list ecs_ContainerStateChange),
         outcome h (TaskStateChange_String
                      (event (containers ++ map Some more)%list [])) w
         = option_map
             (fun sw => (fst sw
                         ++ String.concat ""
                              (map (fun cc => ", container change: " ++ GoString cc)
                                   more),
                         snd sw))
             (outcome h (TaskStateChange_String (event containers [])) w))
  /\ (forall containers (more : list ecs_ContainerStateChange)
             (agents : list ecs_ManagedAgentStateChange),
         outcome h (TaskStateChange_String
                      (event (containers ++ map Some more)%list (map Some agents))) w
         = option_map
             (fun sw => (fst sw
                         ++ String.concat ""
                              (map (fun cc => ", container change: " ++ GoString cc)
                                   more)
                         ++ String.concat ""
                              (map (fun m => ", managed agent: " ++ GoString m)
                                   agents),
                         snd sw))
             (outcome h (TaskStateChange_String (event containers [])) w))
  /\ (forall containers agents more,
         all_set more = false ->
         outcome h (TaskStateChange_String (event containers (agents ++ more)%list)) w
         = None)
  /\ (forall containers agents more,
         all_set more = false ->
         outcome h (TaskStateChange_String (event (containers ++ more)%list agents)) w
         = None).
Proof.
  intros event.
  assert (Hout : forall containers agents,
             outcome h (TaskStateChange_String (event containers agents)) w
             = if all_set containers && all_set agents
               then option_map
                      (fun mw => (task_line (event [] []) ++ fst mw
                                  ++ attachment_clause attachment
                                  ++ container_change_clauses (non_nil containers)
                                  ++ managed_agent_clauses (non_nil agents), snd mw))
                      (task_metadata h w getter)
               else None).
  { intros containers agents.
    exact (outcome_TaskStateChange_String h w (event containers agents)). }
  split; [|split; [|split; [|split]]]; intros; rewrite !Hout;
    rewrite ?all_set_app, ?all_set_map_Some, ?non_nil_app, ?non_nil_map_Some,
      ?andb_true_r.
  4:{ now rewrite H, ?andb_false_r. }
  4:{ rewrite H, ?andb_false_r. now destruct (all_set containers). }
  all: cbn [all_set forallb non_nil];
    rewrite ?andb_true_r;
    generalize (task_line (event [] [])); intros line;
    match goal with
    | |- context [if ?b then _ else _] => destruct b
    end; [|reflexivity];
    destruct (task_metadata h w getter) as [[m wm]|]; cbn [option_map fst snd];
    try reflexivity; f_equal; f_equal;
    rewrite ?managed_agent_clauses_app, ?container_change_clauses_app;
    unfold managed_agent_clauses, container_change_clauses;
    cbn [map String.concat]; rewrite ?append_nil_r, ?append_assoc; reflexivity.
Qed.

Lemma task_rendering_appends_sub_events_witness :
  outcome Sample.task_engine
    (TaskStateChange_String Sample.task_nil_sub_event) 0%nat = None.
Proof.
  exact (proj1 (proj2 (proj2 (proj2
           (@task_rendering_appends_sub_events Sample.imports nat
              Sample.task_engine 0%nat
              None "arn:1" "" Sample.TaskRunning None None None None))))
           [Some "c1"] [] [None] eq_refl).
Defined.

(** Container and task renderings are never empty: a container rendering
    has at least the 31 characters of its two labels plus the name and
    the status text, a task rendering at least the 4 of its arrow plus
    the ARN and the status text. *)
Theorem renderings_have_minimum_length
        {imports : Imports} (W : Type)
        (hc : handler ContainerMetadataGetter W) (ht : handler TaskMetadataGetter W)
        (w : W) :
  (forall (c : ContainerStateChange) (s : string) (w' : W),
      outcome hc (ContainerStateChange_String c) w = Some (s, w') ->
      (31 + String.length (ContainerName c) + String.length (GoString (Status c))
       <= String.length s)%nat
      /\ s <> "")
  /\ (forall (change : TaskStateChange) (s : string) (w' : W),
         outcome ht (TaskStateChange_String change) w = Some (s, w') ->
         (4 + String.length (TaskARN change)
          + String.length (GoString (Task_Status change))
          <= String.length s)%nat
         /\ s <> "").
Proof.
  assert (Hne : forall s : string, (1 <= String.length s)%nat -> s <> "").
  { intros [|ch s] H; [cbn in H; lia | discriminate]. }
  split.
  - intros c s w'. rewrite outcome_ContainerStateChange_String.
    destruct (container_metadata hc w (MetadataGetter c)) as [[m wm]|];
      cbn [option_map fst snd]; [|discriminate].
    assert (31 + String.length (ContainerName c)
            + String.length (GoString (Status c))
            <= String.length (container_fields c ++ m))%nat as Hlen.
    { unfold container_fields, container_header.
      rewrite !length_append. cbn [String.length]. lia. }
    revert Hlen. generalize (container_fields c ++ m). intros s0 Hlen [= <- _].
    split; [exact Hlen | apply Hne; lia].
  - intros change s w'. rewrite outcome_TaskStateChange_String.
    destruct (sub_events_set change); [|discriminate].
    destruct (task_metadata ht w (Task_MetadataGetter change)) as [[m wm]|];
      cbn [option_map fst snd]; [|discriminate].
    assert (4 + String.length (TaskARN change)
            + String.length (GoString (Task_Status change))
            <= String.length (task_line change ++ m ++ task_tail change))%nat
      as Hlen.
    { unfold task_line. rewrite !length_append. cbn [String.length]. lia. }
    revert Hlen. generalize (task_line change ++ m ++ task_tail change).
    intros s0 Hlen [= <- _]. split; [exact Hlen | apply Hne; lia].
Qed.

Lemma renderings_have_minimum_length_witness :
  (31 + 3 + 7
   <= String.length "containerName=web containerStatus=RUNNING containerNetworkBindings=[80->8080 443->8443]")%nat
  /\ (4 + 5 + 7 <= String.length "arn:1 -> RUNNING, container change: c1")%nat.
Proof.
  pose proof (renderings_have_minimum_length
                Sample.container_engine Sample.task_engine 0%nat) as [Hc Ht].
  split.
  - exact (proj1 (Hc Sample.web_void
                    "containerName=web containerStatus=RUNNING containerNetworkBindings=[80->8080 443->8443]"
                    1%nat eq_refl)).
  - exact (proj1 (Ht Sample.task_running "arn:1 -> RUNNING, container change: c1"
                    0%nat eq_refl)).
Defined.

Section AbsentGetter.
Context {imports : Imports}.

Lemma TaskStateChange_String_no_getter (change : TaskStateChange) :
  Task_MetadataGetter change = None ->
  TaskStateChange_String change
  = if sub_events_set change
    then Ret (task_line change ++ task_tail change)
    else Panic.
Proof.
  intros Hg. unfold TaskStateChange_String; cbv zeta. rewrite Hg.
  cbn [bind]. now rewrite task_tail_loops, Sprintf_task_line.
Qed.
End AbsentGetter.

(** A container getter only ever appends.  The event without its getter
    renders without any call, to a string [r]; with a getter, whatever it
    answers, the rendering starts with [r]; and it is [r] itself when the
    nil-check reports the container void, so that a void getter and an
    absent one cannot be told apart in the output. *)
Theorem container_getter_only_appends
        {imports : Imports} (W : Type) (h : handler ContainerMetadataGetter W) (w : W)
        (taskArn runtimeID name digest reason : string) (status : ContainerStatus)
        (exitCode : option Z) (bindings : list ecs_NetworkBinding) :
  let event getter :=
    {| TaskArn := taskArn; RuntimeID := runtimeID; ContainerName := name;
       Status := status; ImageDigest := digest; Reason := reason;
       ExitCode := exitCode; NetworkBindings := bindings;
       MetadataGetter := getter |} in
  exists r : string,
    ContainerStateChange_String (event None) = Ret r
    /\ (forall getter s w',
           outcome h (ContainerStateChange_String (event getter)) w = Some (s, w') ->
           strings.HasPrefix s r = true)
    /\ (forall g w1,
           h _ (GetContainerIsNil g) w = Some (true, w1) ->
           outcome h (ContainerStateChange_String (event (Some g))) w
           = Some (r, w1)).
Proof.
  intros event. exists (container_fields (event None)). split; [|split].
  - now apply ContainerStateChange_String_no_getter.
  - intros getter s w'. rewrite outcome_ContainerStateChange_String.
    change (container_fields (event getter)) with (container_fields (event None)).
    generalize (container_fields (event None)); intros r.
    destruct (container_metadata h w (MetadataGetter (event getter))) as [[m wm]|];
      cbn [option_map fst snd]; [|discriminate].
    intros [= <- _]. apply HasPrefix_append.
  - intros g w1 Hnil. rewrite outcome_ContainerStateChange_String.
    change (container_fields (event (Some g)))
      with (container_fields (event None)).
    cbn [MetadataGetter event container_metadata]. rewrite Hnil.
    cbn [option_map fst snd]. now rewrite append_nil_r.
Qed.

Lemma container_getter_only_appends_witness :
  exists r : string,
    ContainerStateChange_String Sample.web_bare = Ret r
    /\ outcome Sample.container_engine
         (ContainerStateChange_String Sample.web_void) 0%nat = Some (r, 1%nat).
Proof.
  destruct (@container_getter_only_appends Sample.imports nat
              Sample.container_engine 0%nat
              "arn:aws:ecs:task/1" "abc123" "web" "" "" Sample.ContainerRunning
              None ["80->8080"; "443->8443"]) as (r & Hr & _ & Hvoid).
  exists r. split; [exact Hr|]. exact (Hvoid 0%nat 1%nat eq_refl).
Defined.

(** A task whose getter reports the task void behaves exactly as the
    same task without a getter, after the one call of the nil-check: the
    getter-less task makes no call and either returns or, on a nil
    sub-event pointer, panics, and the task with the void getter ends the
    same way. *)
Theorem task_void_getter_renders_as_absent
        {imports : Imports} (W : Type) (h : handler TaskMetadataGetter W) (w : W)
        (attachment : option ni_ENIAttachment) (taskARN reason : string)
        (status : TaskStatus)
        (containers : list (option ecs_ContainerStateChange))
        (agents : list (option ecs_ManagedAgentStateChange))
        (pullStarted pullStopped executionStopped : option time_Time) :
  let event getter :=
    {| Task_Attachment := attachment; TaskARN := taskARN; Task_Status := status;
       Task_Reason := reason; Containers := containers; ManagedAgents := agents;
       PullStartedAt := pullStarted; PullStoppedAt := pullStopped;
       ExecutionStoppedAt := executionStopped; Task_MetadataGetter := getter |} in
  (forall w0 : W, calls h (TaskStateChange_String (event None)) w0 = [])
  /\ (forall g w1,
         h _ (GetTaskIsNil g) w = Some (true, w1) ->
         exec h (TaskStateChange_String (event (Some g))) w
         = ([Returned (GetTaskIsNil g) true],
            outcome h (TaskStateChange_String (event None)) w1))
  /\ (all_set containers && all_set agents = true ->
      exists r, TaskStateChange_String (event None) = Ret r)
  /\ (all_set containers && all_set agents = false ->
      TaskStateChange_String (event None) = Panic).
Proof.
  intros event.
  pose proof (TaskStateChange_String_no_getter (event None) eq_refl) as Hbare.
  change (sub_events_set (event None)) with (all_set containers && all_set agents)
    in Hbare.
  split; [|split; [|split]].
  - intros w0. unfold calls. rewrite Hbare.
    now destruct (all_set containers && all_set agents).
  - intros g w1 Hnil. unfold outcome.
    rewrite !exec_TaskStateChange_String.
    cbn [Task_MetadataGetter event]. now rewrite Hnil.
  - intros Hset. rewrite Hset in Hbare. eexists. exact Hbare.
  - intros Hset. now rewrite Hset in Hbare.
Qed.

Lemma task_void_getter_renders_as_absent_witness :
  exists r : string,
    exec Sample.task_engine (TaskStateChange_String Sample.task_void) 0%nat
    = ([Returned (@GetTaskIsNil Sample.imports 0%nat) true], Some (r, 1%nat)).
Proof.
  destruct (@task_void_getter_renders_as_absent Sample.imports nat
              Sample.task_engine 0%nat
              (Some Sample.eni) "arn:1" "" Sample.TaskStopped
              [Some "c1"] [Some "m1"]
              None None None) as (_ & Hvoid & _).
  exists "arn:1 -> STOPPED, ENI Attachment: mac=0a:1b, container change: c1, managed agent: m1".
  exact (Hvoid 0%nat 1%nat eq_refl).
Defined.
